(** * Python_Proxy_Server: the broker of [server.py]

    A shallow embedding of the publish/subscribe broker implemented by the
    class [Server] of [server.py]: the validator [validate_kom], the router
    [process_message] with its six registry branches, and the cleanup
    [handle_disconnection].

    Modelling choices, all taken from the source:
    - a decoded message is a JSON value ([json.loads]); JSON numbers are the
      integer literals (floating-point literals are outside the model);
    - [self.topics] is a Python [dict], kept as an association list in
      insertion order, looked up with Python's key equality;
    - [self.kkw] is the outbound queue, a list of (socket, message) pairs in
      [put] order;
    - a socket is an opaque handle compared by identity;
    - a Python exception is the [Raise] result of a state-and-error monad;
    - the blocks under [with self.lock] are run as single steps. *)

From Stdlib Require Import List String Ascii ZArith Bool Arith Lia.
From Stdlib Require Import DecimalString.
Import ListNotations.
Local Open Scope string_scope.
Local Open Scope list_scope.

Local Set Warnings "-register-all".

(** ** Python values *)

Module Py.

(** What [json.loads] produces. *)
Inductive json : Type :=
| JNull
| JBool (b : bool)
| JInt (z : Z)
| JStr (s : string)
| JArr (l : list json)
| JObj (d : list (string * json)).

(** A Python [dict] with string keys, in insertion order. *)
Definition dict := list (string * json).

(** The exceptions the modelled code can meet. *)
Inductive exn : Type := TypeError | ValueError | KeyError | AttributeError.

Inductive result (A : Type) : Type :=
| Ok (a : A)
| Raise (e : exn).

Arguments Ok {A} a.
Arguments Raise {A} e.

(** [k in d] for a dict [d]. *)
Fixpoint dict_mem (k : string) (d : dict) : bool :=
  match d with
  | [] => false
  | (k', _) :: r => if String.eqb k k' then true else dict_mem k r
  end.

(** [d[k]] for a dict [d]: [KeyError] when the key is missing. *)
Fixpoint dict_getitem (k : string) (d : dict) : result json :=
  match d with
  | [] => Raise KeyError
  | (k', v) :: r => if String.eqb k k' then Ok v else dict_getitem k r
  end.

(** [d.get(k)]: [None] when the key is missing. *)
Definition dict_get (k : string) (d : dict) : json :=
  match dict_getitem k d with
  | Ok v => v
  | Raise _ => JNull
  end.

(** [d[k] = v]: the value is replaced where the key stands, a new key goes
    to the end. *)
Fixpoint dict_set (k : string) (v : json) (d : dict) : dict :=
  match d with
  | [] => [(k, v)]
  | (k', v') :: r =>
      if String.eqb k k' then (k', v) :: r else (k', v') :: dict_set k v r
  end.

(** [x == "lit"] for a string literal: only a string equals a string. *)
Definition eq_str (x : json) (lit : string) : bool :=
  match x with
  | JStr s => String.eqb s lit
  | _ => false
  end.

(** [x in [lit1, lit2, ...]] for a list of string literals. *)
Definition in_strs (x : json) (lits : list string) : bool :=
  existsb (eq_str x) lits.

(** [sub in s] for two strings: substring test. *)
Definition str_contains (sub s : string) : bool :=
  match String.index 0 sub s with
  | Some _ => true
  | None => false
  end.

(** [key in data] for a string literal [key] and any decoded value: key
    membership for a dict, element membership for a list, substring test for
    a string, [TypeError] for [None], booleans and numbers. *)
Definition py_contains (key : string) (data : json) : result bool :=
  match data with
  | JObj d => Ok (dict_mem key d)
  | JArr l => Ok (existsb (fun x => eq_str x key) l)
  | JStr s => Ok (str_contains key s)
  | JNull | JBool _ | JInt _ => Raise TypeError
  end.

(** [data[key]] for a string literal [key]: only a dict can be indexed by a
    string. *)
Definition py_getitem (key : string) (data : json) : result json :=
  match data with
  | JObj d => dict_getitem key d
  | _ => Raise TypeError
  end.

(** The hashable JSON values, the ones that can be keys of a [dict]. *)
Inductive key : Type :=
| KNone
| KBool (b : bool)
| KInt (z : Z)
| KStr (s : string).

(** [hash(x)] as far as the code depends on it: lists and dicts are
    unhashable. *)
Definition py_hash (x : json) : result key :=
  match x with
  | JNull => Ok KNone
  | JBool b => Ok (KBool b)
  | JInt z => Ok (KInt z)
  | JStr s => Ok (KStr s)
  | JArr _ | JObj _ => Raise TypeError
  end.

Definition json_of_key (k : key) : json :=
  match k with
  | KNone => JNull
  | KBool b => JBool b
  | KInt z => JInt z
  | KStr s => JStr s
  end.

(** Python's [==] on keys: [True == 1] and [False == 0]. *)
Definition key_eqb (a b : key) : bool :=
  match a, b with
  | KNone, KNone => true
  | KStr s, KStr t => String.eqb s t
  | KBool x, KBool y => Bool.eqb x y
  | KInt x, KInt y => Z.eqb x y
  | KBool x, KInt y => Z.eqb (if x then 1 else 0) y
  | KInt x, KBool y => Z.eqb x (if y then 1 else 0)
  | _, _ => false
  end.

(** The value a key is compared by: [None], a number or a string. *)
Definition key_value (k : key) : option (Z + string) :=
  match k with
  | KNone => None
  | KBool b => Some (inl (if b then 1%Z else 0%Z))
  | KInt z => Some (inl z)
  | KStr s => Some (inr s)
  end.

(** [str(x)], what an f-string prints for a key. *)
Definition py_str (k : key) : string :=
  match k with
  | KNone => "None"
  | KBool true => "True"
  | KBool false => "False"
  | KInt z => NilZero.string_of_int (Z.to_int z)
  | KStr s => s
  end.

End Py.

Import Py.

(** ** The server's state *)

(** A socket object; two sockets are equal when they are the same object. *)
Definition conn := nat.

(** The value stored under a topic:
    [{"producer": socket, "producer_id": id, "subscribers": [...]}]. *)
Record info : Type := mk_info {
  producer : conn;
  producer_id : json;
  subscribers : list conn
}.

(** What is put on the outbound queue: an f-string, or [json.dumps(j)]. *)
Inductive message : Type :=
| Text (s : string)
| Dumps (j : json).

(** [self.topics], in insertion order. *)
Definition registry := list (key * info).

Record server : Type := mk_server {
  topics : registry;
  kkw : list (conn * message)
}.

(** [Server.__init__]: no topic, nothing queued. *)
Definition init : server := mk_server [] [].

(** *** Operations of the [topics] dict *)

(** [self.topics.get(k)], by Python's key equality. *)
Fixpoint lookup (k : key) (r : registry) : option info :=
  match r with
  | [] => None
  | (k', i) :: r' => if key_eqb k k' then Some i else lookup k r'
  end.

(** [self.topics[k] = i]: an existing key keeps its place (and its key
    object), a new key goes to the end. *)
Fixpoint setitem (k : key) (i : info) (r : registry) : registry :=
  match r with
  | [] => [(k, i)]
  | (k', i') :: r' =>
      if key_eqb k k' then (k', i) :: r' else (k', i') :: setitem k i r'
  end.

(** [del self.topics[k]]: the entry under a key equal to [k] goes (a dict
    holds one at most). *)
Definition delitem (k : key) (r : registry) : registry :=
  filter (fun e => negb (key_eqb k (fst e))) r.

(** [c in subs] for a list of sockets. *)
Definition mem (c : conn) (subs : list conn) : bool :=
  existsb (Nat.eqb c) subs.

(** [subs.remove(c)]: the first occurrence goes. The source calls it only
    after [c in subs] has been found true. *)
Fixpoint remove_first (c : conn) (subs : list conn) : list conn :=
  match subs with
  | [] => []
  | x :: r => if Nat.eqb c x then r else x :: remove_first c r
  end.

Definition set_subscribers (i : info) (subs : list conn) : info :=
  mk_info (producer i) (producer_id i) subs.

(** ** The monad of the handlers: state and exceptions *)

Definition M (A : Type) : Type := server -> result A * server.

Definition ret {A} (a : A) : M A := fun s => (Ok a, s).

Definition bind {A B} (m : M A) (f : A -> M B) : M B :=
  fun s =>
    match m s with
    | (Ok a, s') => f a s'
    | (Raise e, s') => (Raise e, s')
    end.

Definition lift {A} (r : result A) : M A := fun s => (r, s).

Definition get_topics : M registry := fun s => (Ok (topics s), s).

Definition set_topics (r : registry) : M unit :=
  fun s => (Ok tt, mk_server r (kkw s)).

(** [self.kkw.put((c, m))]. *)
Definition kkw_put (c : conn) (m : message) : M unit :=
  fun s => (Ok tt, mk_server (topics s) (kkw s ++ [(c, m)])).

Declare Scope monad_scope.
Delimit Scope monad_scope with monad.
Notation "x <- m ;; f" := (bind m (fun x => f))
  (at level 61, m at next level, right associativity) : monad_scope.
Notation "m ;; f" := (bind m (fun _ => f))
  (at level 61, right associativity) : monad_scope.
Local Open Scope monad_scope.

(** The state a handler leaves behind, whether it returned or raised. *)
Definition exec {A} (m : M A) (s : server) : server := snd (m s).

(** ** [process_message]: the six branches *)

(** The payload of a fan-out message:
    [json.dumps({"topic": topic, "payload": payload})]. *)
Definition fanout (topic payload : json) : message :=
  Dumps (JObj [("topic", topic); ("payload", payload)]).

(** One element of the status list:
    [{"topic": t, "id": self.topics[t]["producer_id"]}]. *)
Definition status_entry (e : key * info) : json :=
  JObj [("topic", json_of_key (fst e)); ("id", producer_id (snd e))].

(** [type == "register"] and [mode == "producer"] (lines 213-222).
    [topic in self.topics] hashes [topic] first. *)
Definition register_producer (topic : json) (client_socket : conn)
  (client_id : json) : M unit :=
  k <- lift (py_hash topic) ;;
  tps <- get_topics ;;
  match lookup k tps with
  | Some i =>
      if Nat.eqb (producer i) client_socket
      then kkw_put client_socket
             (Text ("You already are the producer of topic " ++ py_str k ++ "."))
      else kkw_put client_socket
             (Text ("Topic " ++ py_str k ++ " already exists."))
  | None =>
      set_topics (setitem k (mk_info client_socket client_id []) tps) ;;
      kkw_put client_socket (Text ("New topic registered: " ++ py_str k))
  end.

(** [type == "register"] and [mode == "subscriber"] (lines 224-233). *)
Definition register_subscriber (topic : json) (client_socket : conn)
  : M unit :=
  k <- lift (py_hash topic) ;;
  tps <- get_topics ;;
  match lookup k tps with
  | Some i =>
      if mem client_socket (subscribers i)
      then kkw_put client_socket
             (Text ("You already are a subscriber of topic " ++ py_str k ++ "."))
      else
        set_topics
          (setitem k (set_subscribers i (subscribers i ++ [client_socket])) tps) ;;
        kkw_put client_socket (Text ("Subscribed to topic: " ++ py_str k))
  | None =>
      kkw_put client_socket (Text ("Topic " ++ py_str k ++ " doesn't exist."))
  end.

(** [type == "withdraw"] and [mode == "subscriber"] (lines 235-244). *)
Definition withdraw_subscriber (topic : json) (client_socket : conn)
  : M unit :=
  k <- lift (py_hash topic) ;;
  tps <- get_topics ;;
  match lookup k tps with
  | Some i =>
      if mem client_socket (subscribers i)
      then
        set_topics
          (setitem k
             (set_subscribers i (remove_first client_socket (subscribers i)))
             tps) ;;
        kkw_put client_socket
          (Text ("Subscription of topic " ++ py_str k ++ " has been withdrawn."))
      else kkw_put client_socket
             (Text ("You are not a subscriber of topic " ++ py_str k ++ "."))
  | None =>
      kkw_put client_socket (Text ("Topic " ++ py_str k ++ " doesn't exist."))
  end.

(** [type == "withdraw"] and [mode == "producer"] (lines 246-255). *)
Definition withdraw_producer (topic : json) (client_socket : conn)
  : M unit :=
  k <- lift (py_hash topic) ;;
  tps <- get_topics ;;
  match lookup k tps with
  | Some i =>
      if Nat.eqb (producer i) client_socket
      then
        set_topics (delitem k tps) ;;
        kkw_put client_socket
          (Text ("Topic " ++ py_str k ++ " has been withdrawn."))
      else kkw_put client_socket
             (Text ("You are not a producer of topic " ++ py_str k ++ "."))
  | None =>
      kkw_put client_socket (Text ("Topic " ++ py_str k ++ " doesn't exist."))
  end.

(** The loop [for sub in subscribers: self.kkw.put((sub, ...))]. *)
Fixpoint put_each (subs : list conn) (m : message) : M unit :=
  match subs with
  | [] => ret tt
  | sub :: r => kkw_put sub m ;; put_each r m
  end.

(** [type == "message"], whatever the mode (lines 257-271). *)
Definition publish (topic : json) (client_socket : conn) (payload : json)
  : M unit :=
  k <- lift (py_hash topic) ;;
  tps <- get_topics ;;
  match lookup k tps with
  | Some i =>
      if Nat.eqb (producer i) client_socket
      then put_each (subscribers i) (fanout topic payload)
      else kkw_put client_socket
             (Text ("You are not a producer of topic " ++ py_str k ++ "."))
  | None =>
      kkw_put client_socket (Text ("Topic " ++ py_str k ++ " doesn't exist."))
  end.

(** [type == "status"] (lines 273-277): the list is built from the dict in
    iteration order, stored in [data["payload"]], and [data] is dumped. *)
Definition snapshot_status (data : dict) (client_socket : conn) : M unit :=
  tps <- get_topics ;;
  let topics_status := JArr (map status_entry tps) in
  kkw_put client_socket (Dumps (JObj (dict_set "payload" topics_status data))).

(** [process_message(data, client_socket)] (lines 205-279). [data.get]
    exists on a dict only. *)
Definition process_message (data : json) (client_socket : conn) : M unit :=
  match data with
  | JObj d =>
      let message_type := dict_get "type" d in
      let topic := dict_get "topic" d in
      let client_id := dict_get "id" d in
      if eq_str message_type "register" && eq_str (dict_get "mode" d) "producer"
      then register_producer topic client_socket client_id
      else if eq_str message_type "register"
              && eq_str (dict_get "mode" d) "subscriber"
      then register_subscriber topic client_socket
      else if eq_str message_type "withdraw"
              && eq_str (dict_get "mode" d) "subscriber"
      then withdraw_subscriber topic client_socket
      else if eq_str message_type "withdraw"
              && eq_str (dict_get "mode" d) "producer"
      then withdraw_producer topic client_socket
      else if eq_str message_type "message"
      then publish topic client_socket (dict_get "payload" d)
      else if eq_str message_type "status"
      then snapshot_status d client_socket
      else kkw_put client_socket (Text "Unknown message type.")
  | _ => lift (Raise AttributeError)
  end.

(** ** [handle_disconnection] (lines 178-195) *)

(** One turn of the first loop, over the snapshot [list(self.topics.items())].
    [info] is the very object stored in [self.topics], so its subscriber list
    is the live one; the removal is written back under its topic. *)
Definition disconnect_visit (client_socket : conn)
  (acc : list key * registry) (item : key * info) : list key * registry :=
  let '(topics_to_remove, tps) := acc in
  let '(topic, i) := item in
  let topics_to_remove :=
    if Nat.eqb (producer i) client_socket
    then topics_to_remove ++ [topic] else topics_to_remove in
  let tps :=
    if mem client_socket (subscribers i)
    then setitem topic
           (set_subscribers i (remove_first client_socket (subscribers i))) tps
    else tps in
  (topics_to_remove, tps).

(** The second loop: [for topic in topics_to_remove: del self.topics[topic]]. *)
Definition delete_all (topics_to_remove : list key) (tps : registry)
  : registry :=
  fold_left (fun r topic => delitem topic r) topics_to_remove tps.

Definition handle_disconnection (client_socket : conn) (s : server)
  : server :=
  let '(topics_to_remove, tps) :=
    fold_left (disconnect_visit client_socket) (topics s) ([], topics s) in
  mk_server (delete_all topics_to_remove tps) (kkw s).

(** ** [validate_kom] (lines 101-122) *)

Section Validator.

(** [datetime.datetime.fromisoformat] belongs to Python's library: all the
    code depends on is whether a string is accepted. *)
Variable iso_valid : string -> bool.

(** [datetime.datetime.fromisoformat(x)]: [TypeError] unless [x] is a
    string, [ValueError] when the string is not a date-time. *)
Definition fromisoformat (x : json) : result unit :=
  match x with
  | JStr ts => if iso_valid ts then Ok tt else Raise ValueError
  | _ => Raise TypeError
  end.

Definition required_keys : list string :=
  ["type"; "id"; "topic"; "mode"; "timestamp"; "payload"].

(** The loop [for key in required_keys: if key not in data: return False];
    [Ok true] stands for the loop running to its end. *)
Fixpoint check_keys (keys : list string) (data : json) : result bool :=
  match keys with
  | [] => Ok true
  | key :: r =>
      match py_contains key data with
      | Raise e => Raise e
      | Ok false => Ok false
      | Ok true => check_keys r data
      end
  end.

(** The body of the [try]. *)
Definition validate_body (data : json) : result bool :=
  match check_keys required_keys data with
  | Raise e => Raise e
  | Ok false => Ok false
  | Ok true =>
      match py_getitem "timestamp" data with
      | Raise e => Raise e
      | Ok ts =>
          match fromisoformat ts with
          | Raise e => Raise e
          | Ok _ =>
              match py_getitem "type" data with
              | Raise e => Raise e
              | Ok ty =>
                  if negb (in_strs ty ["register"; "withdraw"; "message"; "status"])
                  then Ok false
                  else
                    match py_getitem "mode" data with
                    | Raise e => Raise e
                    | Ok mode =>
                        if negb (in_strs mode ["producer"; "subscriber"])
                           && negb (in_strs ty ["status"])
                        then Ok false
                        else Ok true
                    end
              end
          end
      end
  end.

(** [try: ... except Exception: return False]. *)
Definition validate_kom (data : json) : result bool :=
  match validate_body data with
  | Ok b => Ok b
  | Raise _ => Ok false
  end.

End Validator.

(** ** Routing, outcomes and invariants used by the statements *)

(** The branch of [process_message] an envelope is sent to. *)
Inductive action : Type :=
| RegisterProducer
| RegisterSubscriber
| WithdrawSubscriber
| WithdrawProducer
| Publish
| Status.

(** The conditions of the [if]/[elif] chain of [process_message], in the
    order of the source; [None] is the final [else]. *)
Definition route (d : dict) : option action :=
  let message_type := dict_get "type" d in
  let mode := dict_get "mode" d in
  if eq_str message_type "register" && eq_str mode "producer"
  then Some RegisterProducer
  else if eq_str message_type "register" && eq_str mode "subscriber"
  then Some RegisterSubscriber
  else if eq_str message_type "withdraw" && eq_str mode "subscriber"
  then Some WithdrawSubscriber
  else if eq_str message_type "withdraw" && eq_str mode "producer"
  then Some WithdrawProducer
  else if eq_str message_type "message" then Some Publish
  else if eq_str message_type "status" then Some Status
  else None.

(** The body of the branch. *)
Definition perform (a : action) (d : dict) (client_socket : conn) : M unit :=
  let topic := dict_get "topic" d in
  match a with
  | RegisterProducer => register_producer topic client_socket (dict_get "id" d)
  | RegisterSubscriber => register_subscriber topic client_socket
  | WithdrawSubscriber => withdraw_subscriber topic client_socket
  | WithdrawProducer => withdraw_producer topic client_socket
  | Publish => publish topic client_socket (dict_get "payload" d)
  | Status => snapshot_status d client_socket
  end.

(** The rows of the routing table of the specification (section 4.5): the
    five (type, mode) pairs and [status] with any mode. *)
Definition listed_row (d : dict) : bool :=
  let message_type := dict_get "type" d in
  let mode := dict_get "mode" d in
  (eq_str message_type "register" && eq_str mode "producer")
  || (eq_str message_type "register" && eq_str mode "subscriber")
  || (eq_str message_type "withdraw" && eq_str mode "producer")
  || (eq_str message_type "withdraw" && eq_str mode "subscriber")
  || (eq_str message_type "message" && eq_str mode "producer")
  || eq_str message_type "status".

(** The outcomes of the registry operations, as the specification names
    them (section 4.3). *)
Inductive outcome : Type :=
| created
| already_producer
| name_taken
| subscribed
| already_subscribed
| removed
| not_producer
| not_subscriber
| no_such_topic
| delivered (subscriber_list : list conn)
| status_listed.

(** The outcome the specification gives an operation on topic [k] called by
    [c], read off the registry before the call. *)
Definition spec_outcome (a : action) (k : key) (c : conn) (r : registry)
  : outcome :=
  match a, lookup k r with
  | Status, _ => status_listed
  | _, None =>
      match a with RegisterProducer => created | _ => no_such_topic end
  | RegisterProducer, Some i =>
      if Nat.eqb (producer i) c then already_producer else name_taken
  | RegisterSubscriber, Some i =>
      if mem c (subscribers i) then already_subscribed else subscribed
  | WithdrawProducer, Some i =>
      if Nat.eqb (producer i) c then removed else not_producer
  | WithdrawSubscriber, Some i =>
      if mem c (subscribers i) then removed else not_subscriber
  | Publish, Some i =>
      if Nat.eqb (producer i) c then delivered (subscribers i) else not_producer
  end.

Definition is_conflict (o : outcome) : bool :=
  match o with
  | name_taken | already_producer | already_subscribed
  | not_producer | not_subscriber | no_such_topic => true
  | _ => false
  end.

(** The text the source replies with on a conflict. *)
Definition conflict_text (o : outcome) (k : key) : string :=
  match o with
  | name_taken => "Topic " ++ py_str k ++ " already exists."
  | already_producer => "You already are the producer of topic " ++ py_str k ++ "."
  | already_subscribed => "You already are a subscriber of topic " ++ py_str k ++ "."
  | not_producer => "You are not a producer of topic " ++ py_str k ++ "."
  | not_subscriber => "You are not a subscriber of topic " ++ py_str k ++ "."
  | _ => "Topic " ++ py_str k ++ " doesn't exist."
  end.

(** No two entries of the dict have equal keys. *)
Fixpoint unique_keys (r : registry) : Prop :=
  match r with
  | [] => True
  | (k, _) :: r' => lookup k r' = None /\ unique_keys r'
  end.

(** No socket is twice in a subscriber list. *)
Definition subscribers_nodup (r : registry) : Prop :=
  Forall (fun e => NoDup (subscribers (snd e))) r.

Definition Inv (s : server) : Prop :=
  unique_keys (topics s) /\ subscribers_nodup (topics s).

(** [c] is a producer of the topic named [k]. *)
Definition producer_of (s : server) (k : key) (c : conn) : Prop :=
  exists k' i, In (k', i) (topics s) /\ key_eqb k k' = true /\ producer i = c.

(** What changes the server's state: a message handed to [process_message]
    (with or without validation, see [process_received_messages]) and a
    disconnection. *)
Inductive event : Type :=
| Message (data : json) (client_socket : conn)
| Disconnect (client_socket : conn).

Definition step (e : event) (s : server) : server :=
  match e with
  | Message data c => exec (process_message data c) s
  | Disconnect c => handle_disconnection c s
  end.

Inductive reachable : server -> Prop :=
| reachable_init : reachable init
| reachable_step e s : reachable s -> reachable (step e s).

(** Running a list of (message, socket) pairs through [process_message]. *)
Definition run_all (calls : list (json * conn)) (s : server) : server :=
  fold_left (fun s call => exec (process_message (fst call) (snd call)) s)
    calls s.

(** What is left of a topic's entry after socket [c] has disconnected. *)
Definition without_subscriber (c : conn) (e : key * info) : key * info :=
  (fst e,
   if mem c (subscribers (snd e))
   then set_subscribers (snd e) (remove_first c (subscribers (snd e)))
   else snd e).

Definition produced_by (c : conn) (e : key * info) : bool :=
  Nat.eqb (producer (snd e)) c.

(** [s] begins with [p]. *)
Fixpoint starts_with (p s : string) : bool :=
  match p, s with
  | EmptyString, _ => true
  | String a p', String b s' => Ascii.eqb a b && starts_with p' s'
  | String _ _, EmptyString => false
  end.

(** Is this queued message the reply to a successful producer
    registration? *)
Definition is_created_reply (m : conn * message) : bool :=
  match snd m with
  | Text t => starts_with "New topic registered: " t
  | Dumps _ => false
  end.

(** The fields of an envelope of the wire format, as the client writes
    them. *)
Definition fields (ty : string) (id topic : json) (mode : string)
  (payload : json) : dict :=
  [("type", JStr ty); ("id", id); ("topic", topic); ("mode", JStr mode);
   ("timestamp", JStr "2024-01-01T00:00:00"); ("payload", payload)].

Definition envelope (ty : string) (id topic : json) (mode : string)
  (payload : json) : json :=
  JObj (fields ty id topic mode payload).

(** A date-time parser that accepts the one timestamp of [envelope]. *)
Definition iso_sample (ts : string) : bool :=
  String.eqb ts "2024-01-01T00:00:00".


(** An event that registers a producer for a topic named like [k]. *)
Definition registers_producer (k : key) (e : event) : Prop :=
  exists d c k', e = Message (JObj d) c /\ route d = Some RegisterProducer
                 /\ py_hash (dict_get "topic" d) = Ok k'
                 /\ key_eqb k' k = true.

Definition run_events (es : list event) (s : server) : server :=
  fold_left (fun s e => step e s) es s.

(** One turn of [monitor_topics] (lines 92-97): a message that fails
    validation is dropped. *)
Definition monitor_step (iso_valid : string -> bool) (data : json)
  (client_socket : conn) (s : server) : server :=
  match validate_kom iso_valid data with
  | Ok true => exec (process_message data client_socket) s
  | _ => s
  end.


(** [x] is one of the string literals [lits]. *)
Definition one_of (x : json) (lits : list string) : Prop :=
  exists lit, In lit lits /\ x = JStr lit.

(** The envelopes the validator accepts, in the words of the specification
    (section 4.2). *)
Definition well_formed (iso_valid : string -> bool) (d : dict) : Prop :=
  Forall (fun key => dict_mem key d = true) required_keys
  /\ (exists ts, dict_get "timestamp" d = JStr ts /\ iso_valid ts = true)
  /\ one_of (dict_get "type" d) ["register"; "withdraw"; "message"; "status"]
  /\ (one_of (dict_get "mode" d) ["producer"; "subscriber"]
      \/ dict_get "type" d = JStr "status").

(** The routing table the source implements: [message] is published
    whatever its mode. *)
Definition routed_as (ty mode : json) (a : action) : Prop :=
  (ty = JStr "register" /\ mode = JStr "producer" /\ a = RegisterProducer)
  \/ (ty = JStr "register" /\ mode = JStr "subscriber"
      /\ a = RegisterSubscriber)
  \/ (ty = JStr "withdraw" /\ mode = JStr "producer" /\ a = WithdrawProducer)
  \/ (ty = JStr "withdraw" /\ mode = JStr "subscriber"
      /\ a = WithdrawSubscriber)
  \/ (ty = JStr "message"
      /\ (mode = JStr "producer" \/ mode = JStr "subscriber") /\ a = Publish)
  \/ (ty = JStr "status" /\ a = Status).

(** The reply of the final [else] of [process_message]. *)
Definition unknown_reply (c : conn) (s : server) : result unit * server :=
  (Ok tt, mk_server (topics s) (kkw s ++ [(c, Text "Unknown message type.")])).

(** Sample states: socket 1 has registered topic [temp], socket 2 has
    subscribed to it. *)
Definition sample_calls : list (json * conn) :=
  [(envelope "register" (JStr "P") (JStr "temp") "producer" (JObj []), 1);
   (envelope "register" (JStr "S") (JStr "temp") "subscriber" (JObj []), 2)].

Definition sample_state : server := run_all sample_calls init.

(** Scenario D: topics [a] (owner [id1]) and [b] (owner [id2]). *)
Definition scenario_d_state : server :=
  run_all
    [(envelope "register" (JStr "id1") (JStr "a") "producer" (JObj []), 1);
     (envelope "register" (JStr "id2") (JStr "b") "producer" (JObj []), 2)]
    init.




(** ** Further vocabulary for the registry *)

(** The socket an event comes from. *)
Definition sender (e : event) : conn :=
  match e with
  | Message _ c => c
  | Disconnect c => c
  end.

(** Socket [c] is neither producer nor subscriber of any topic. *)
Definition uninvolved (c : conn) (s : server) : Prop :=
  forall k i, In (k, i) (topics s) -> producer i <> c /\ ~ In c (subscribers i).

(** What one call of [process_message] by socket [c] in state [s] can put
    on the outbound queue: nothing (it raised, or it published to no
    subscriber), one text or one dump for the caller, or the same dump for
    every subscriber of a topic the caller produces. *)
Inductive queued_by (c : conn) (s : server) : list (conn * message) -> Prop :=
| queued_nothing : queued_by c s []
| queued_text (t : string) :
    starts_with "{" t = false -> queued_by c s [(c, Text t)]
| queued_dump (j : json) : queued_by c s [(c, Dumps j)]
| queued_fanout (k : key) (i : info) (j : json) :
    In (k, i) (topics s) -> producer i = c ->
    queued_by c s (map (fun sub => (sub, Dumps j)) (subscribers i)).

(** The messages of a list that are addressed to socket [c]. *)
Definition addressed_to (c : conn) (msgs : list (conn * message))
  : list (conn * message) :=
  filter (fun m => Nat.eqb (fst m) c) msgs.

(** ** The inbound queue [kko] and its consumers *)

(** [self.kko]: (socket, decoded message) pairs in [put] order. *)
Definition inbound := list (conn * json).

(** [monitor_topics] (lines 83-99), run on the content of the queue: a
    message that fails validation is skipped, an exception of
    [process_message] ends the thread with the rest of the queue
    untouched; [Ok] is the idle loop on the empty queue. *)
Fixpoint monitor_topics (iso_valid : string -> bool) (kko : inbound)
  (s : server) : result unit * inbound * server :=
  match kko with
  | [] => (Ok tt, [], s)
  | (client_socket, data) :: rest =>
      match validate_kom iso_valid data with
      | Ok true =>
          match process_message data client_socket s with
          | (Ok _, s') => monitor_topics iso_valid rest s'
          | (Raise e, s') => (Raise e, rest, s')
          end
      | _ => monitor_topics iso_valid rest s
      end
  end.

(** [process_received_messages] (lines 197-203), run on the content of the
    queue: no validation. *)
Fixpoint process_received_messages (kko : inbound) (s : server)
  : result unit * inbound * server :=
  match kko with
  | [] => (Ok tt, [], s)
  | (client_socket, data) :: rest =>
      match process_message data client_socket s with
      | (Ok _, s') => process_received_messages rest s'
      | (Raise e, s') => (Raise e, rest, s')
      end
  end.


(** ** [handle_client] (lines 157-176) *)

(** What one turn of the receive loop meets. *)
Inductive received : Type :=
| Chunk (data : json)   (* the bytes decode, and [json.loads] gives [data] *)
| Garbled               (* [decode] or [json.loads] raises *)
| PeerClosed            (* [recv] returns no byte *)
| RecvFailed.           (* [recv] raises *)

(** The thread of one client, fed with what its [recv] calls meet: every
    decoded message is put on [kko]; the first turn that is not a decoded
    message ends the loop, through [break] or through the [except], and the
    [finally] runs [handle_disconnection]. The boolean tells whether the
    socket has been closed; with no turn left the thread waits in [recv].
    The threads started for the queued messages run on their own
    ([process_received_messages]). *)
Fixpoint handle_client (client_socket : conn) (turns : list received)
  (kko : inbound) (s : server) : inbound * server * bool :=
  match turns with
  | [] => (kko, s, false)
  | Chunk data :: rest =>
      handle_client client_socket rest (kko ++ [(client_socket, data)]) s
  | _ :: _ => (kko, handle_disconnection client_socket s, true)
  end.

Definition is_chunk (r : received) : bool :=
  match r with Chunk _ => true | _ => false end.

(** The messages of the decoded turns. *)
Fixpoint chunks_of (client_socket : conn) (turns : list received) : inbound :=
  match turns with
  | Chunk data :: rest => (client_socket, data) :: chunks_of client_socket rest
  | _ :: rest => chunks_of client_socket rest
  | [] => []
  end.

(** The calls of [process_message] that raise: what is not a dict has no
    [get]; a list or a dict cannot be looked up in [self.topics]. *)
Definition raises (data : json) : Prop :=
  (forall d, data <> JObj d)
  \/ exists d a e,
      data = JObj d /\ route d = Some a /\ a <> Status
      /\ py_hash (dict_get "topic" d) = Raise e.

Definition action_is_status (a : action) : bool :=
  match a with Status => true | _ => false end.


(** ** The client ([client_api.py]) *)

(** The truth value Python gives a decoded value in [if x]. *)
Definition truthy (x : json) : bool :=
  match x with
  | JNull => false
  | JBool b => b
  | JInt z => negb (Z.eqb z 0)
  | JStr s => match s with EmptyString => false | String _ _ => true end
  | JArr l => match l with [] => false | _ :: _ => true end
  | JObj d => match d with [] => false | _ :: _ => true end
  end.

Module ClientAPI.

(** [get_timestamp] (lines 16-20): [datetime.utcnow().isoformat() + "Z"],
    given what [isoformat] returned. *)
Definition get_timestamp (utcnow_iso : string) : string :=
  (utcnow_iso ++ "Z")%string.

(** The dict literal the six request builders share (lines 61-125). *)
Definition request (ty : string) (client_id topic_name : json)
  (mode : string) (utcnow_iso : string) (payload : json) : dict :=
  [("type", JStr ty); ("id", client_id); ("topic", topic_name);
   ("mode", JStr mode); ("timestamp", JStr (get_timestamp utcnow_iso));
   ("payload", payload)].

Definition register_producer (client_id : json) (utcnow_iso : string)
  (topic_name : json) : dict :=
  request "register" client_id topic_name "producer" utcnow_iso (JObj []).

Definition register_subscriber (client_id : json) (utcnow_iso : string)
  (topic_name : json) : dict :=
  request "register" client_id topic_name "subscriber" utcnow_iso (JObj []).


Definition withdraw_producer (client_id : json) (utcnow_iso : string)
  (topic_name : json) : dict :=
  request "withdraw" client_id topic_name "producer" utcnow_iso (JObj []).

Definition withdraw_subscriber (client_id : json) (utcnow_iso : string)
  (topic_name : json) : dict :=
  request "withdraw" client_id topic_name "subscriber" utcnow_iso (JObj []).

Definition get_server_status (client_id : json) (utcnow_iso : string)
  : dict :=
  request "status" client_id (JStr "logs") EmptyString utcnow_iso (JObj []).

(** What the listener shows for one response. *)
Inductive shown : Type :=
| MessageReceived (topic message : json)
| ServerStatus (payload : json)
| NothingShown.

(** [listen_for_messages] (lines 47-53) on a response that starts with an
    opening brace, given what [json.loads] made of it. An exception is
    caught by the loop's [except], which stops the listener. *)
Definition listen_for_messages (data : json) : result shown :=
  match data with
  | JObj d =>
      let topic := dict_get "topic" d in
      let message := dict_get "payload" d in
      if truthy topic && truthy message && negb (eq_str topic "logs")
      then Ok (MessageReceived topic message)
      else if eq_str (dict_get "type" d) "status"
      then match dict_getitem "payload" d with
           | Ok payload => Ok (ServerStatus payload)
           | Raise e => Raise e
           end
      else Ok NothingShown
  | _ => Raise AttributeError
  end.

End ClientAPI.

(** ** The client's window ([client_gui.py], lines 134-175) *)

Module ClientWindow.

(** What a button does: call the client API, which sends the request, or
    write a line on the console. *)
Inductive effect : Type :=
| Sends (request : dict)
| Logs (line : string).

(** [if text:] for the text of an entry field. *)
Definition filled (text : string) : bool :=
  match text with EmptyString => false | String _ _ => true end.

Definition register_topic (client_id utcnow_iso topic : string) : effect :=
  if filled topic
  then Sends (ClientAPI.register_producer (JStr client_id) utcnow_iso
                (JStr topic))
  else Logs "Error: Topic name can't be empty!".

Definition register_subscription (client_id utcnow_iso topic : string)
  : effect :=
  if filled topic
  then Sends (ClientAPI.register_subscriber (JStr client_id) utcnow_iso
                (JStr topic))
  else Logs "Error: Topic name can't be empty!".

Definition withdraw_topic (client_id utcnow_iso topic : string) : effect :=
  if filled topic
  then Sends (ClientAPI.withdraw_producer (JStr client_id) utcnow_iso
                (JStr topic))
  else Logs "Error: Topic name can't be empty!".

Definition withdraw_subscription (client_id utcnow_iso topic : string)
  : effect :=
  if filled topic
  then Sends (ClientAPI.withdraw_subscriber (JStr client_id) utcnow_iso
                (JStr topic))
  else Logs "Error: Topic name can't be empty!".

Definition server_status (client_id utcnow_iso : string) : effect :=
  Sends (ClientAPI.get_server_status (JStr client_id) utcnow_iso).


End ClientWindow.

(** ** Configuration ([load_config] of the server and of the client) *)

Module Config.

(** What opening and parsing the configuration file gives. [Unreadable]
    stands for every other exception of [open] and [json.load]: a file
    that cannot be opened ([PermissionError], [IsADirectoryError]) or
    whose bytes are not UTF-8 ([UnicodeDecodeError]); neither handler
    catches those. *)
Inductive file : Type :=
| Missing                (* [FileNotFoundError] *)
| NotJson                (* [json.JSONDecodeError] *)
| Unreadable             (* any other exception of [open] or [json.load] *)
| Parsed (config : json).

(** The exceptions [load_config] lets through. *)
Inductive error : Type :=
| ReadError              (* what [open] or [json.load] raised *)
| NoGetAttribute         (* [AttributeError]: the value has no [get] *)
| IndexOutOfRange        (* [IndexError] *)
| NoSuchKey              (* [KeyError] *)
| NotSubscriptable.      (* [TypeError] *)

Inductive loaded (A : Type) : Type :=
| Settings (a : A)
| Crashes (e : error).

Arguments Settings {A} a.
Arguments Crashes {A} e.

(** [config.get(key, default)]. *)
Definition get_default (key : string) (default : json) (config : dict)
  : json :=
  match dict_getitem key config with
  | Ok v => v
  | Raise _ => default
  end.

(** A Python string is held as the bytes of its UTF-8 encoding; the first
    byte of a character tells how many bytes the character takes. *)
Definition utf8_width (first : ascii) : nat :=
  let n := nat_of_ascii first in
  if Nat.ltb n 192 then 1
  else if Nat.ltb n 224 then 2
  else if Nat.ltb n 240 then 3
  else 4.

(** [s[0]] for a string that is not empty: its first character. *)
Definition first_character (s : string) : string :=
  match s with
  | EmptyString => EmptyString
  | String a _ => String.substring 0 (utf8_width a) s
  end.

(** [x[0]]: the first element of a list, the first character of a string;
    a dict decoded from JSON has no key [0]. *)
Definition first_item (x : json) : loaded json :=
  match x with
  | JArr (a :: _) => Settings a
  | JArr [] => Crashes IndexOutOfRange
  | JStr (String a r) => Settings (JStr (first_character (String a r)))
  | JStr EmptyString => Crashes IndexOutOfRange
  | JObj _ => Crashes NoSuchKey
  | JNull | JBool _ | JInt _ => Crashes NotSubscriptable
  end.

Record server_config : Type := mk_server_config {
  address : json;
  port : json;
  timeout : json;
  server_id : json
}.

Definition server_defaults : server_config :=
  mk_server_config (JStr "127.0.0.1") (JInt 1234) (JInt 3)
    (JStr "default_server").

(** [Server.load_config] ([server.py], lines 24-51). *)
Definition load_config (f : file) : loaded server_config :=
  match f with
  | Missing => Settings server_defaults
  | NotJson => Settings server_defaults
  | Unreadable => Crashes ReadError
  | Parsed (JObj config) =>
      match first_item
              (get_default "ListenAddresses" (JArr [JStr "127.0.0.1"]) config)
      with
      | Crashes e => Crashes e
      | Settings a =>
          Settings
            (mk_server_config a
               (get_default "ListenPort" (JInt 1234) config)
               (get_default "TimeOut" (JInt 3) config)
               (get_default "ServerID" (JStr "default_server") config))
      end
  | Parsed _ => Crashes NoGetAttribute
  end.




End Config.

(** ** The dispatcher ([handle_outgoing_messages], lines 143-155) *)

Section Dispatcher.

(** The text of [json.dumps]. *)
Variable dumps : json -> string.

(** Does [client_socket.send(message.encode('utf-8'))] go through, at the
    n-th turn of the loop? *)
Variable send_ok : nat -> conn -> message -> bool.

(** [str(client_socket.getpeername())] at that turn, when it does not
    raise. *)
Variable peername : nat -> conn -> option string.

(** [datetime.datetime.now().strftime(...)] at that turn. *)
Variable now : nat -> string.

(** Does appending to [log.txt] go through at that turn? *)
Variable append_ok : nat -> bool.

(** The string that stands on the queue. *)
Definition text_of (m : message) : string :=
  match m with
  | Text t => t
  | Dumps j => dumps j
  end.

Definition newline : string := String (ascii_of_nat 10) EmptyString.

(** What has left the server: the messages sent, in order, and the lines
    of [log.txt]. *)
Record outbox : Type := mk_outbox {
  sent : list (conn * message);
  log_txt : list string
}.

(** [on_message_sent] (lines 130-141): [getpeername] raising ends the
    callback with an exception ([None]); a failed write is caught. *)
Definition on_message_sent (n : nat) (client_socket : conn) (m : message)
  (lines : list string) : option (list string) :=
  match peername n client_socket with
  | None => None
  | Some peer =>
      let log_entry :=
        (now n ++ " - Message to " ++ peer ++ ": " ++ text_of m
         ++ newline)%string in
      Some (if append_ok n then lines ++ [log_entry] else lines)
  end.

(** The loop, run on the content of [kkw], starting at turn [n];
    [callback_kkw] tells whether a callback has been registered
    ([register_kkw_callback], lines 124-128). Whatever raises inside the
    [try] is caught and the loop goes on. *)
Fixpoint handle_outgoing_messages (callback_kkw : bool) (n : nat)
  (queue : list (conn * message)) (o : outbox) : outbox :=
  match queue with
  | [] => o
  | (client_socket, m) :: rest =>
      let o' :=
        if send_ok n client_socket m
        then
          let sent' := sent o ++ [(client_socket, m)] in
          if callback_kkw
          then match on_message_sent n client_socket m (log_txt o) with
               | Some lines => mk_outbox sent' lines
               | None => mk_outbox sent' (log_txt o)
               end
          else mk_outbox sent' (log_txt o)
        else o in
      handle_outgoing_messages callback_kkw (S n) rest o'
  end.

End Dispatcher.


(** The line [on_message_sent] writes for a message. *)
Definition log_line_of (dumps : json -> string) (item : conn * message)
  (line : string) : Prop :=
  exists stamp peer,
    line = (stamp ++ " - Message to " ++ peer ++ ": "
            ++ text_of dumps (snd item) ++ newline)%string.
(** * Properties *)

(** ** Keys *)

Lemma key_eqb_refl (k : key) : key_eqb k k = true.
Proof.
  destruct k as [ | b | z | s]; simpl.
  - reflexivity.
  - apply Bool.eqb_reflx.
  - apply Z.eqb_refl.
  - apply String.eqb_refl.
Qed.

Lemma key_eqb_value (a b : key) :
  key_eqb a b = true <-> key_value a = key_value b.
Proof.
  destruct a as [ | x | x | x], b as [ | y | y | y]; simpl;
    try (split; [discriminate | congruence]).
  - tauto.
  - destruct x, y; simpl; split; congruence.
  - rewrite Z.eqb_eq. split; congruence.
  - rewrite Z.eqb_eq. split; congruence.
  - rewrite Z.eqb_eq. split; congruence.
  - rewrite String.eqb_eq. split; congruence.
Qed.

Lemma key_eqb_sym (a b : key) : key_eqb a b = key_eqb b a.
Proof.
  destruct (key_eqb a b) eqn:E1, (key_eqb b a) eqn:E2; try reflexivity.
  - apply key_eqb_value in E1. symmetry in E1.
    apply key_eqb_value in E1. congruence.
  - apply key_eqb_value in E2. symmetry in E2.
    apply key_eqb_value in E2. congruence.
Qed.

Lemma key_eqb_trans (a b c : key) :
  key_eqb a b = true -> key_eqb b c = true -> key_eqb a c = true.
Proof.
  rewrite !key_eqb_value. congruence.
Qed.

(** Equal keys cannot be told apart by a lookup. *)
Lemma key_eqb_compat (a b c : key) :
  key_eqb a b = true -> key_eqb a c = key_eqb b c.
Proof.
  intros Hab.
  destruct (key_eqb a c) eqn:Hac, (key_eqb b c) eqn:Hbc; try reflexivity.
  - rewrite key_eqb_sym in Hab.
    rewrite (key_eqb_trans _ _ _ Hab Hac) in Hbc. discriminate.
  - rewrite (key_eqb_trans _ _ _ Hab Hbc) in Hac. discriminate.
Qed.

Lemma py_hash_key (k : key) : py_hash (json_of_key k) = Ok k.
Proof. destruct k; reflexivity. Qed.

Lemma py_hash_inv (x : json) (k : key) :
  py_hash x = Ok k -> x = json_of_key k.
Proof.
  destruct x; simpl; intros H; inversion H; reflexivity.
Qed.

(** ** The [topics] dict *)

Lemma lookup_equal_keys (a b : key) (r : registry) :
  key_eqb a b = true -> lookup a r = lookup b r.
Proof.
  intros Hab. induction r as [ | [k i] r IH]; simpl.
  - reflexivity.
  - rewrite (key_eqb_compat _ _ k Hab), IH. reflexivity.
Qed.

Lemma lookup_In (k : key) (r : registry) (i : info) :
  lookup k r = Some i -> exists k', In (k', i) r /\ key_eqb k k' = true.
Proof.
  induction r as [ | [k0 i0] r IH]; simpl.
  - discriminate.
  - destruct (key_eqb k k0) eqn:E.
    + intros H. inversion H. subst. exists k0. auto.
    + intros H. destruct (IH H) as [k' [Hin Hk]]. exists k'. auto.
Qed.

Lemma lookup_None_In (k : key) (r : registry) (k' : key) (i : info) :
  lookup k r = None -> In (k', i) r -> key_eqb k k' = false.
Proof.
  induction r as [ | [k0 i0] r IH]; simpl.
  - tauto.
  - destruct (key_eqb k k0) eqn:E.
    + discriminate.
    + intros H [Hin | Hin].
      * inversion Hin. subst. exact E.
      * auto.
Qed.

Lemma lookup_app_None (k : key) (r1 r2 : registry) :
  lookup k (r1 ++ r2) = None <-> lookup k r1 = None /\ lookup k r2 = None.
Proof.
  induction r1 as [ | [k0 i0] r1 IH]; simpl.
  - tauto.
  - destruct (key_eqb k k0).
    + split; [discriminate | intros [H _]; discriminate].
    + exact IH.
Qed.

Lemma lookup_setitem_same (k : key) (i : info) (r : registry) :
  lookup k (setitem k i r) = Some i.
Proof.
  induction r as [ | [k0 i0] r IH]; simpl.
  - rewrite key_eqb_refl. reflexivity.
  - destruct (key_eqb k k0) eqn:E; simpl; rewrite E; auto.
Qed.

Lemma lookup_setitem_other (k k' : key) (i : info) (r : registry) :
  key_eqb k' k = false -> lookup k' (setitem k i r) = lookup k' r.
Proof.
  intros Hne. induction r as [ | [k0 i0] r IH]; simpl.
  - rewrite Hne. reflexivity.
  - destruct (key_eqb k k0) eqn:E; simpl.
    + assert (key_eqb k' k0 = false) as ->.
      { destruct (key_eqb k' k0) eqn:E'; [ | reflexivity].
        rewrite (key_eqb_sym k k0) in E.
        rewrite (key_eqb_trans _ _ _ E' E) in Hne. discriminate. }
      reflexivity.
    + rewrite IH. reflexivity.
Qed.

Lemma setitem_absent (k : key) (i : info) (r : registry) :
  lookup k r = None -> setitem k i r = r ++ [(k, i)].
Proof.
  induction r as [ | [k0 i0] r IH]; simpl.
  - reflexivity.
  - destruct (key_eqb k k0); [discriminate | ].
    intros H. rewrite (IH H). reflexivity.
Qed.

(** Assigning to a key that is present leaves the keys as they are. *)
Lemma setitem_present_keys (k : key) (i : info) (r : registry) :
  lookup k r <> None -> map fst (setitem k i r) = map fst r.
Proof.
  induction r as [ | [k0 i0] r IH]; simpl.
  - congruence.
  - destruct (key_eqb k k0); simpl.
    + reflexivity.
    + intros H. rewrite (IH H). reflexivity.
Qed.

Lemma lookup_None_keys (k : key) (r r' : registry) :
  map fst r = map fst r' -> lookup k r = None -> lookup k r' = None.
Proof.
  revert r'. induction r as [ | [k0 i0] r IH]; intros [ | [k1 i1] r']; simpl;
    try discriminate; auto.
  intros H. inversion H. subst.
  destruct (key_eqb k k1); [discriminate | ]. apply IH. assumption.
Qed.

Lemma unique_keys_by_keys (r r' : registry) :
  map fst r = map fst r' -> unique_keys r -> unique_keys r'.
Proof.
  revert r'. induction r as [ | [k0 i0] r IH]; intros [ | [k1 i1] r']; simpl;
    try discriminate; auto.
  intros H [Hn Hu]. inversion H. subst. split.
  - eapply lookup_None_keys; eauto.
  - apply IH; assumption.
Qed.

Lemma lookup_delitem_same (k : key) (r : registry) :
  lookup k (delitem k r) = None.
Proof.
  unfold delitem. induction r as [ | [k0 i0] r IH]; simpl.
  - reflexivity.
  - destruct (key_eqb k k0) eqn:E; simpl.
    + exact IH.
    + rewrite E. exact IH.
Qed.

Lemma lookup_delitem_None (k k' : key) (r : registry) :
  lookup k r = None -> lookup k (delitem k' r) = None.
Proof.
  unfold delitem. induction r as [ | [k0 i0] r IH]; simpl.
  - reflexivity.
  - destruct (key_eqb k k0) eqn:E; [discriminate | ].
    intros H. destruct (key_eqb k' k0); simpl.
    + auto.
    + rewrite E. auto.
Qed.

Lemma lookup_delitem_other (k k' : key) (r : registry) :
  key_eqb k' k = false -> lookup k' (delitem k r) = lookup k' r.
Proof.
  intros Hne. unfold delitem. induction r as [ | [k0 i0] r IH]; simpl.
  - reflexivity.
  - destruct (key_eqb k k0) eqn:E; simpl.
    + assert (key_eqb k' k0 = false) as ->.
      { destruct (key_eqb k' k0) eqn:E'; [ | reflexivity].
        rewrite (key_eqb_sym k k0) in E.
        rewrite (key_eqb_trans _ _ _ E' E) in Hne. discriminate. }
      exact IH.
    + rewrite IH. reflexivity.
Qed.

Lemma unique_keys_delitem (k : key) (r : registry) :
  unique_keys r -> unique_keys (delitem k r).
Proof.
  induction r as [ | [k0 i0] r IH]; simpl.
  - trivial.
  - intros [Hn Hu]. unfold delitem in *. simpl.
    destruct (key_eqb k k0); simpl.
    + auto.
    + split; [ | auto]. apply (lookup_delitem_None _ k r Hn).
Qed.

Lemma unique_keys_app (r : registry) (k : key) (i : info) :
  unique_keys r -> lookup k r = None -> unique_keys (r ++ [(k, i)]).
Proof.
  induction r as [ | [k0 i0] r IH]; simpl.
  - auto.
  - intros [Hn Hu]. destruct (key_eqb k k0) eqn:E; [discriminate | ].
    intros Hk. split; [ | auto].
    apply lookup_app_None. split; [assumption | ].
    simpl. rewrite key_eqb_sym, E. reflexivity.
Qed.

Lemma unique_keys_setitem (k : key) (i : info) (r : registry) :
  unique_keys r -> unique_keys (setitem k i r).
Proof.
  intros Hu. destruct (lookup k r) eqn:E.
  - apply (unique_keys_by_keys r).
    + symmetry. apply setitem_present_keys. congruence.
    + assumption.
  - rewrite (setitem_absent _ _ _ E). apply unique_keys_app; assumption.
Qed.

(** With unique keys, a topic name has one entry. *)
Lemma unique_keys_In (r : registry) (k k' : key) (i i' : info) :
  unique_keys r -> In (k, i) r -> In (k', i') r -> key_eqb k k' = true ->
  (k, i) = (k', i').
Proof.
  induction r as [ | [k0 i0] r IH]; simpl.
  - tauto.
  - intros [Hn Hu] [H1 | H1] [H2 | H2] He.
    + congruence.
    + inversion H1. subst.
      rewrite (lookup_None_In _ _ _ _ Hn H2) in He. discriminate.
    + inversion H2. subst. rewrite key_eqb_sym in He.
      rewrite (lookup_None_In _ _ _ _ Hn H1) in He. discriminate.
    + auto.
Qed.

Lemma unique_keys_lookup (r : registry) (k : key) (i : info) :
  unique_keys r -> In (k, i) r -> lookup k r = Some i.
Proof.
  induction r as [ | [k0 i0] r IH]; simpl.
  - tauto.
  - intros [Hn Hu] [H | H].
    + inversion H. subst. rewrite key_eqb_refl. reflexivity.
    + rewrite key_eqb_sym, (lookup_None_In _ _ _ _ Hn H). auto.
Qed.

(** ** Subscriber lists *)

Lemma mem_In (c : conn) (l : list conn) : mem c l = true <-> In c l.
Proof.
  unfold mem. rewrite existsb_exists. split.
  - intros [x [Hin Hx]]. apply Nat.eqb_eq in Hx. subst. assumption.
  - intros H. exists c. split; [assumption | apply Nat.eqb_refl].
Qed.

Lemma mem_false (c : conn) (l : list conn) : mem c l = false <-> ~ In c l.
Proof.
  rewrite <- mem_In. destruct (mem c l); split; congruence.
Qed.

Lemma NoDup_snoc (c : conn) (l : list conn) :
  NoDup l -> ~ In c l -> NoDup (l ++ [c]).
Proof.
  induction l as [ | x l IH]; simpl; intros Hnd Hnot.
  - constructor; [tauto | constructor].
  - inversion Hnd as [ | ? ? Hx Hl]. subst. constructor.
    + rewrite in_app_iff. simpl. intros [H | [H | []]]; [tauto | ].
      apply Hnot. left. symmetry. exact H.
    + apply IH; tauto.
Qed.

Lemma remove_first_incl (c x : conn) (l : list conn) :
  In x (remove_first c l) -> In x l.
Proof.
  induction l as [ | y l IH]; simpl.
  - tauto.
  - destruct (Nat.eqb c y); simpl; tauto.
Qed.

Lemma remove_first_NoDup (c : conn) (l : list conn) :
  NoDup l -> NoDup (remove_first c l).
Proof.
  induction l as [ | y l IH]; simpl; intros Hnd.
  - constructor.
  - inversion Hnd as [ | ? ? Hy Hl]. subst.
    destruct (Nat.eqb c y); [assumption | ].
    constructor; [ | auto].
    intros H. apply Hy. eapply remove_first_incl. exact H.
Qed.

(** Without duplicates, [remove] leaves no occurrence behind. *)
Lemma remove_first_gone (c : conn) (l : list conn) :
  NoDup l -> ~ In c (remove_first c l).
Proof.
  induction l as [ | y l IH]; simpl; intros Hnd.
  - tauto.
  - inversion Hnd as [ | ? ? Hy Hl]. subst.
    destruct (Nat.eqb c y) eqn:E.
    + apply Nat.eqb_eq in E. subst. assumption.
    + apply Nat.eqb_neq in E. simpl. intros [H | H]; [congruence | ].
      exact (IH Hl H).
Qed.

Lemma subscribers_nodup_lookup (k : key) (r : registry) (i : info) :
  subscribers_nodup r -> lookup k r = Some i -> NoDup (subscribers i).
Proof.
  intros Hall Hl. destruct (lookup_In _ _ _ Hl) as [k' [Hin _]].
  unfold subscribers_nodup in Hall. rewrite Forall_forall in Hall.
  exact (Hall _ Hin).
Qed.

Lemma subscribers_nodup_setitem (k : key) (i : info) (r : registry) :
  subscribers_nodup r -> NoDup (subscribers i) ->
  subscribers_nodup (setitem k i r).
Proof.
  unfold subscribers_nodup. intros Hall Hi.
  induction r as [ | [k0 i0] r IH]; simpl.
  - constructor; [exact Hi | constructor].
  - inversion Hall as [ | ? ? H0 Hr]. subst.
    destruct (key_eqb k k0); constructor; auto.
Qed.

Lemma subscribers_nodup_delitem (k : key) (r : registry) :
  subscribers_nodup r -> subscribers_nodup (delitem k r).
Proof.
  unfold subscribers_nodup, delitem. intros Hall.
  rewrite Forall_forall in *. intros e He.
  apply filter_In in He. apply Hall. tauto.
Qed.

(** ** The branches, one equation each *)

Lemma put_each_run (subs : list conn) (m : message) (s : server) :
  put_each subs m s
  = (Ok tt, mk_server (topics s) (kkw s ++ map (fun sub => (sub, m)) subs)).
Proof.
  revert s. induction subs as [ | sub r IH]; intros s; simpl.
  - unfold ret. rewrite app_nil_r. destruct s; reflexivity.
  - unfold bind, kkw_put. rewrite IH. simpl.
    rewrite <- app_assoc. reflexivity.
Qed.

Ltac run_branch H :=
  unfold register_producer, register_subscriber, withdraw_subscriber,
    withdraw_producer, publish, snapshot_status, bind, lift, get_topics,
    set_topics, kkw_put, ret;
  rewrite H; simpl.

(** An unhashable topic: [topic in self.topics] raises before anything is
    read or written. *)
Lemma branch_unhashable (a : action) (d : dict) (c : conn) (s : server)
  (e : exn) :
  a <> Status -> py_hash (dict_get "topic" d) = Raise e ->
  perform a d c s = (Raise e, s).
Proof.
  intros Ha H. destruct a; try congruence; unfold perform; run_branch H;
    reflexivity.
Qed.

Lemma register_producer_run (topic : json) (c : conn) (id : json)
  (s : server) (k : key) :
  py_hash topic = Ok k ->
  register_producer topic c id s =
  (Ok tt,
   match lookup k (topics s) with
   | Some i =>
       mk_server (topics s)
         (kkw s ++ [(c, Text (conflict_text
                                (if Nat.eqb (producer i) c
                                 then already_producer else name_taken) k))])
   | None =>
       mk_server (topics s ++ [(k, mk_info c id [])])
         (kkw s ++ [(c, Text ("New topic registered: " ++ py_str k))])
   end).
Proof.
  intros H. run_branch H. destruct (lookup k (topics s)) as [i | ] eqn:E.
  - destruct (Nat.eqb (producer i) c); reflexivity.
  - simpl. rewrite (setitem_absent _ _ _ E). reflexivity.
Qed.

Lemma register_subscriber_run (topic : json) (c : conn) (s : server)
  (k : key) :
  py_hash topic = Ok k ->
  register_subscriber topic c s =
  (Ok tt,
   match lookup k (topics s) with
   | Some i =>
       if mem c (subscribers i)
       then mk_server (topics s)
              (kkw s ++ [(c, Text (conflict_text already_subscribed k))])
       else mk_server
              (setitem k (set_subscribers i (subscribers i ++ [c])) (topics s))
              (kkw s ++ [(c, Text ("Subscribed to topic: " ++ py_str k))])
   | None =>
       mk_server (topics s)
         (kkw s ++ [(c, Text (conflict_text no_such_topic k))])
   end).
Proof.
  intros H. run_branch H. destruct (lookup k (topics s)) as [i | ].
  - destruct (mem c (subscribers i)); reflexivity.
  - reflexivity.
Qed.

Lemma withdraw_subscriber_run (topic : json) (c : conn) (s : server)
  (k : key) :
  py_hash topic = Ok k ->
  withdraw_subscriber topic c s =
  (Ok tt,
   match lookup k (topics s) with
   | Some i =>
       if mem c (subscribers i)
       then mk_server
              (setitem k (set_subscribers i (remove_first c (subscribers i)))
                 (topics s))
              (kkw s ++ [(c, Text ("Subscription of topic " ++ py_str k
                                   ++ " has been withdrawn."))])
       else mk_server (topics s)
              (kkw s ++ [(c, Text (conflict_text not_subscriber k))])
   | None =>
       mk_server (topics s)
         (kkw s ++ [(c, Text (conflict_text no_such_topic k))])
   end).
Proof.
  intros H. run_branch H. destruct (lookup k (topics s)) as [i | ].
  - destruct (mem c (subscribers i)); reflexivity.
  - reflexivity.
Qed.

Lemma withdraw_producer_run (topic : json) (c : conn) (s : server)
  (k : key) :
  py_hash topic = Ok k ->
  withdraw_producer topic c s =
  (Ok tt,
   match lookup k (topics s) with
   | Some i =>
       if Nat.eqb (producer i) c
       then mk_server (delitem k (topics s))
              (kkw s ++ [(c, Text ("Topic " ++ py_str k
                                   ++ " has been withdrawn."))])
       else mk_server (topics s)
              (kkw s ++ [(c, Text (conflict_text not_producer k))])
   | None =>
       mk_server (topics s)
         (kkw s ++ [(c, Text (conflict_text no_such_topic k))])
   end).
Proof.
  intros H. run_branch H. destruct (lookup k (topics s)) as [i | ].
  - destruct (Nat.eqb (producer i) c); reflexivity.
  - reflexivity.
Qed.

Lemma publish_run (topic : json) (c : conn) (payload : json) (s : server)
  (k : key) :
  py_hash topic = Ok k ->
  publish topic c payload s =
  (Ok tt,
   match lookup k (topics s) with
   | Some i =>
       if Nat.eqb (producer i) c
       then mk_server (topics s)
              (kkw s ++ map (fun sub => (sub, fanout topic payload))
                        (subscribers i))
       else mk_server (topics s)
              (kkw s ++ [(c, Text (conflict_text not_producer k))])
   | None =>
       mk_server (topics s)
         (kkw s ++ [(c, Text (conflict_text no_such_topic k))])
   end).
Proof.
  intros H. run_branch H. destruct (lookup k (topics s)) as [i | ].
  - destruct (Nat.eqb (producer i) c).
    + rewrite put_each_run. reflexivity.
    + reflexivity.
  - reflexivity.
Qed.

Lemma snapshot_status_run (d : dict) (c : conn) (s : server) :
  snapshot_status d c s =
  (Ok tt,
   mk_server (topics s)
     (kkw s ++ [(c, Dumps (JObj (dict_set "payload"
                                   (JArr (map status_entry (topics s))) d)))])).
Proof. reflexivity. Qed.

(** [process_message] on a dict is the branch chosen by [route]. *)
Lemma process_message_route (d : dict) (c : conn) :
  process_message (JObj d) c =
  match route d with
  | Some a => perform a d c
  | None => kkw_put c (Text "Unknown message type.")
  end.
Proof.
  unfold process_message, route, perform.
  repeat match goal with
         | |- context [if ?b then _ else _] => destruct b; try reflexivity
         end.
Qed.

Lemma process_message_not_dict (data : json) (c : conn) (s : server) :
  (forall d, data <> JObj d) ->
  process_message data c s = (Raise AttributeError, s).
Proof.
  intros H. destruct data; try reflexivity. exfalso. apply (H d). reflexivity.
Qed.

(** An unhashable topic makes the five branches that look it up raise. *)
Lemma process_message_unhashable (d : dict) (c : conn) (s : server)
  (a : action) (e : exn) :
  route d = Some a -> a <> Status ->
  py_hash (dict_get "topic" d) = Raise e ->
  process_message (JObj d) c s = (Raise e, s).
Proof.
  intros Hr Ha Hh. rewrite process_message_route, Hr.
  apply branch_unhashable; assumption.
Qed.

(** ** [handle_disconnection] in closed form *)

Lemma without_subscriber_keys (c : conn) (r : registry) :
  map fst (map (without_subscriber c) r) = map fst r.
Proof.
  rewrite map_map. apply map_ext. intros e. reflexivity.
Qed.


Lemma unique_keys_middle (pre suf : registry) (k : key) (i : info) :
  unique_keys (pre ++ (k, i) :: suf) -> lookup k pre = None.
Proof.
  induction pre as [ | [k0 i0] pre IH]; simpl.
  - reflexivity.
  - intros [Hn Hu]. apply lookup_app_None in Hn. destruct Hn as [_ Hn].
    simpl in Hn. destruct (key_eqb k0 k) eqn:E; [discriminate | ].
    rewrite key_eqb_sym, E. auto.
Qed.

Lemma setitem_middle (pre suf : registry) (k : key) (i i0 : info) :
  lookup k pre = None ->
  setitem k i (pre ++ (k, i0) :: suf) = pre ++ (k, i) :: suf.
Proof.
  induction pre as [ | [k1 i1] pre IH]; simpl.
  - rewrite key_eqb_refl. reflexivity.
  - destruct (key_eqb k k1); [discriminate | ].
    intros H. rewrite (IH H). reflexivity.
Qed.

(** The first loop, started in the middle of the snapshot: the entries
    already visited have lost [c], the others are as they were. *)
Lemma disconnect_loop (c : conn) (suf pre : registry) (acc : list key) :
  unique_keys (pre ++ suf) ->
  fold_left (disconnect_visit c) suf
    (acc, map (without_subscriber c) pre ++ suf)
  = (acc ++ map fst (filter (produced_by c) suf),
     map (without_subscriber c) (pre ++ suf)).
Proof.
  revert pre acc. induction suf as [ | [topic i] suf IH]; intros pre acc Hu.
  - simpl. rewrite !app_nil_r. reflexivity.
  - assert (Hpre : lookup topic (map (without_subscriber c) pre) = None).
    { apply (lookup_None_keys topic pre).
      - symmetry. apply without_subscriber_keys.
      - eapply unique_keys_middle. exact Hu. }
    assert (Hu' : unique_keys ((pre ++ [(topic, i)]) ++ suf)).
    { rewrite <- app_assoc. exact Hu. }
    specialize (IH (pre ++ [(topic, i)])).
    simpl fold_left.
    replace (if mem c (subscribers i)
             then setitem topic
                    (set_subscribers i (remove_first c (subscribers i)))
                    (map (without_subscriber c) pre ++ (topic, i) :: suf)
             else map (without_subscriber c) pre ++ (topic, i) :: suf)
      with (map (without_subscriber c) (pre ++ [(topic, i)]) ++ suf).
    + rewrite (IH _ Hu'). rewrite <- (app_assoc pre). simpl.
      change (produced_by c (topic, i)) with (Nat.eqb (producer i) c).
      destruct (Nat.eqb (producer i) c); simpl.
      * rewrite <- app_assoc. reflexivity.
      * reflexivity.
    + rewrite map_app, <- app_assoc. simpl.
      unfold without_subscriber at 2. simpl.
      destruct (mem c (subscribers i)).
      * rewrite setitem_middle by exact Hpre. reflexivity.
      * reflexivity.
Qed.

Lemma filter_filter {A} (f g : A -> bool) (l : list A) :
  filter f (filter g l) = filter (fun x => g x && f x) l.
Proof.
  induction l as [ | x l IH]; simpl.
  - reflexivity.
  - destruct (g x); simpl.
    + destruct (f x); rewrite IH; reflexivity.
    + exact IH.
Qed.

Lemma filter_map_swap {A B} (f : B -> bool) (g : A -> B) (l : list A) :
  filter f (map g l) = map g (filter (fun x => f (g x)) l).
Proof.
  induction l as [ | x l IH]; simpl.
  - reflexivity.
  - destruct (f (g x)); simpl; rewrite IH; reflexivity.
Qed.

(** The second loop deletes the entries whose key is in the list. *)
Lemma delete_all_filter (ks : list key) (r : registry) :
  delete_all ks r
  = filter (fun e => negb (existsb (fun t => key_eqb t (fst e)) ks)) r.
Proof.
  unfold delete_all. revert r. induction ks as [ | t ks IH]; intros r; simpl.
  - symmetry. apply forallb_filter_id. apply forallb_forall. reflexivity.
  - rewrite IH. unfold delitem. rewrite filter_filter.
    apply filter_ext. intros e. symmetry. apply negb_orb.
Qed.

(** With unique keys, the key of an entry is in the list of the topics
    produced by [c] exactly when [c] produces that entry. *)
Lemma produced_keys_spec (c : conn) (r : registry) (e : key * info) :
  unique_keys r -> In e r ->
  existsb (fun t => key_eqb t (fst e)) (map fst (filter (produced_by c) r))
  = produced_by c e.
Proof.
  intros Hu Hin. destruct (produced_by c e) eqn:E.
  - apply existsb_exists. exists (fst e). split.
    + apply in_map. apply filter_In. auto.
    + apply key_eqb_refl.
  - destruct (existsb _ _) eqn:Ex; [ | reflexivity].
    apply existsb_exists in Ex. destruct Ex as [t [Ht Hk]].
    apply in_map_iff in Ht. destruct Ht as [[t' i'] [Hfst Hf]].
    simpl in Hfst. subst t'. apply filter_In in Hf. destruct Hf as [Hf Hp].
    destruct e as [k i]. simpl in Hk.
    assert ((t, i') = (k, i)) as Heq
      by (eapply unique_keys_In; eauto).
    rewrite Heq in Hp. congruence.
Qed.

Lemma handle_disconnection_topics (c : conn) (s : server) :
  unique_keys (topics s) ->
  topics (handle_disconnection c s)
  = map (without_subscriber c)
      (filter (fun e => negb (produced_by c e)) (topics s)).
Proof.
  intros Hu. unfold handle_disconnection.
  pose proof (disconnect_loop c (topics s) [] [] Hu) as H.
  cbn [map app] in H.
  destruct (fold_left _ _ _) as [ks tps] eqn:E.
  inversion H. subst ks tps.
  cbn [topics].
  rewrite delete_all_filter, filter_map_swap. f_equal.
  apply filter_ext_in. intros e He. f_equal. simpl.
  apply produced_keys_spec; assumption.
Qed.

Lemma handle_disconnection_kkw (c : conn) (s : server) :
  kkw (handle_disconnection c s) = kkw s.
Proof.
  unfold handle_disconnection.
  destruct (fold_left _ _ _) as [ks tps]. reflexivity.
Qed.

Lemma lookup_filter_None (f : key * info -> bool) (k : key) (r : registry) :
  lookup k r = None -> lookup k (filter f r) = None.
Proof.
  induction r as [ | [k0 i0] r IH]; simpl.
  - reflexivity.
  - destruct (key_eqb k k0) eqn:E; [discriminate | ].
    intros H. destruct (f (k0, i0)); simpl.
    + rewrite E. auto.
    + auto.
Qed.

Lemma unique_keys_filter (f : key * info -> bool) (r : registry) :
  unique_keys r -> unique_keys (filter f r).
Proof.
  induction r as [ | [k0 i0] r IH]; simpl.
  - trivial.
  - intros [Hn Hu]. destruct (f (k0, i0)); simpl; auto.
    split; [ | auto]. apply lookup_filter_None. exact Hn.
Qed.

Lemma without_subscriber_idem (c : conn) (e : key * info) :
  NoDup (subscribers (snd e)) ->
  without_subscriber c (without_subscriber c e) = without_subscriber c e.
Proof.
  intros Hnd. unfold without_subscriber. simpl.
  destruct (mem c (subscribers (snd e))) eqn:E.
  - simpl.
    assert (mem c (remove_first c (subscribers (snd e))) = false) as ->.
    { apply mem_false. apply remove_first_gone. exact Hnd. }
    reflexivity.
  - rewrite E. reflexivity.
Qed.


Lemma without_subscriber_nodup (c : conn) (e : key * info) :
  NoDup (subscribers (snd e)) ->
  NoDup (subscribers (snd (without_subscriber c e))).
Proof.
  intros Hnd. unfold without_subscriber. simpl.
  destruct (mem c (subscribers (snd e))).
  - simpl. apply remove_first_NoDup. exact Hnd.
  - exact Hnd.
Qed.

(** ** The invariant is kept by every branch *)

Lemma Inv_init : Inv init.
Proof. split; simpl; [trivial | constructor]. Qed.

Lemma Inv_same_topics (s s' : server) :
  topics s' = topics s -> Inv s -> Inv s'.
Proof. unfold Inv. intros ->. trivial. Qed.

Lemma Inv_setitem (s : server) (k : key) (i : info)
  (q : list (conn * message)) :
  Inv s -> NoDup (subscribers i) -> Inv (mk_server (setitem k i (topics s)) q).
Proof.
  intros [Hu Hn] Hi. split; simpl.
  - apply unique_keys_setitem. exact Hu.
  - apply subscribers_nodup_setitem; assumption.
Qed.

Ltac raise_branch H :=
  unfold exec; run_branch H; assumption.

Lemma Inv_register_producer (topic : json) (c : conn) (id : json)
  (s : server) :
  Inv s -> Inv (exec (register_producer topic c id) s).
Proof.
  intros HI. destruct (py_hash topic) as [k | e] eqn:Hh; [ | raise_branch Hh].
  unfold exec. rewrite (register_producer_run _ _ _ _ _ Hh). simpl.
  destruct (lookup k (topics s)) as [i | ] eqn:E.
  - exact HI.
  - rewrite <- (setitem_absent _ (mk_info c id []) _ E).
    apply Inv_setitem; [exact HI | constructor].
Qed.

Lemma Inv_register_subscriber (topic : json) (c : conn) (s : server) :
  Inv s -> Inv (exec (register_subscriber topic c) s).
Proof.
  intros HI. destruct (py_hash topic) as [k | e] eqn:Hh; [ | raise_branch Hh].
  unfold exec. rewrite (register_subscriber_run _ _ _ _ Hh). simpl.
  destruct (lookup k (topics s)) as [i | ] eqn:E; [ | exact HI].
  destruct (mem c (subscribers i)) eqn:Em; [exact HI | ].
  apply Inv_setitem; [exact HI | ]. simpl. apply NoDup_snoc.
  - destruct HI as [_ Hn]. eapply subscribers_nodup_lookup; eauto.
  - apply mem_false. exact Em.
Qed.

Lemma Inv_withdraw_subscriber (topic : json) (c : conn) (s : server) :
  Inv s -> Inv (exec (withdraw_subscriber topic c) s).
Proof.
  intros HI. destruct (py_hash topic) as [k | e] eqn:Hh; [ | raise_branch Hh].
  unfold exec. rewrite (withdraw_subscriber_run _ _ _ _ Hh). simpl.
  destruct (lookup k (topics s)) as [i | ] eqn:E; [ | exact HI].
  destruct (mem c (subscribers i)) eqn:Em; [ | exact HI].
  apply Inv_setitem; [exact HI | ]. simpl. apply remove_first_NoDup.
  destruct HI as [_ Hn]. eapply subscribers_nodup_lookup; eauto.
Qed.

Lemma Inv_withdraw_producer (topic : json) (c : conn) (s : server) :
  Inv s -> Inv (exec (withdraw_producer topic c) s).
Proof.
  intros HI. destruct (py_hash topic) as [k | e] eqn:Hh; [ | raise_branch Hh].
  unfold exec. rewrite (withdraw_producer_run _ _ _ _ Hh). simpl.
  destruct (lookup k (topics s)) as [i | ] eqn:E; [ | exact HI].
  destruct (Nat.eqb (producer i) c); [ | exact HI].
  destruct HI as [Hu Hn]. split; simpl.
  - apply unique_keys_delitem. exact Hu.
  - apply subscribers_nodup_delitem. exact Hn.
Qed.

(** [publish] and [snapshot_status] leave [self.topics] alone, whatever
    they are given. *)
Lemma publish_topics (topic : json) (c : conn) (payload : json)
  (s : server) :
  topics (exec (publish topic c payload) s) = topics s.
Proof.
  destruct (py_hash topic) as [k | e] eqn:Hh.
  - unfold exec. rewrite (publish_run _ _ _ _ _ Hh). simpl.
    destruct (lookup k (topics s)) as [i | ]; [ | reflexivity].
    destruct (Nat.eqb (producer i) c); reflexivity.
  - unfold exec. run_branch Hh. reflexivity.
Qed.

Lemma snapshot_status_topics (d : dict) (c : conn) (s : server) :
  topics (exec (snapshot_status d c) s) = topics s.
Proof. reflexivity. Qed.

Lemma Inv_handle_disconnection (c : conn) (s : server) :
  Inv s -> Inv (handle_disconnection c s).
Proof.
  intros [Hu Hn]. unfold Inv.
  rewrite (handle_disconnection_topics c s Hu). split.
  - eapply unique_keys_by_keys.
    + symmetry. apply without_subscriber_keys.
    + apply unique_keys_filter. exact Hu.
  - unfold subscribers_nodup in *. rewrite Forall_forall in *.
    intros e He. apply in_map_iff in He. destruct He as [e0 [<- He0]].
    apply filter_In in He0. apply without_subscriber_nodup. apply Hn. tauto.
Qed.

Lemma Inv_perform (a : action) (d : dict) (c : conn) (s : server) :
  Inv s -> Inv (exec (perform a d c) s).
Proof.
  intros HI. destruct a; simpl.
  - apply Inv_register_producer. exact HI.
  - apply Inv_register_subscriber. exact HI.
  - apply Inv_withdraw_subscriber. exact HI.
  - apply Inv_withdraw_producer. exact HI.
  - eapply Inv_same_topics; [apply publish_topics | exact HI].
  - exact HI.
Qed.

Lemma Inv_process_message (data : json) (c : conn) (s : server) :
  Inv s -> Inv (exec (process_message data c) s).
Proof.
  intros HI. destruct data as [ | b | z | t | l | d]; try exact HI.
  rewrite process_message_route. destruct (route d) as [a | ].
  - apply Inv_perform. exact HI.
  - exact HI.
Qed.

Lemma Inv_step (e : event) (s : server) : Inv s -> Inv (step e s).
Proof.
  destruct e as [data c | c]; simpl.
  - apply Inv_process_message.
  - apply Inv_handle_disconnection.
Qed.

Lemma reachable_Inv (s : server) : reachable s -> Inv s.
Proof.
  induction 1 as [ | e s Hr IH].
  - exact Inv_init.
  - apply Inv_step. exact IH.
Qed.

(** Under the invariant a topic that is present has one producer. *)
Lemma Inv_one_producer (s : server) (k : key) :
  Inv s -> lookup k (topics s) <> None ->
  exists p, producer_of s k p /\ forall p', producer_of s k p' -> p' = p.
Proof.
  intros [Hu _] Hl. destruct (lookup k (topics s)) as [i | ] eqn:E;
    [ | congruence].
  destruct (lookup_In _ _ _ E) as [k0 [Hin Hk]].
  exists (producer i). split.
  - exists k0, i. auto.
  - intros p' [k1 [i1 [Hin1 [Hk1 Hp1]]]].
    assert ((k0, i) = (k1, i1)) as Heq.
    { eapply unique_keys_In; eauto.
      rewrite key_eqb_sym in Hk. eapply key_eqb_trans; eauto. }
    inversion Heq. subst. reflexivity.
Qed.

(** After [register_subscriber] on a present topic the caller is in its
    subscriber list, once. *)
Lemma register_subscriber_once (topic : json) (c : conn) (s : server)
  (k : key) :
  Inv s -> py_hash topic = Ok k -> lookup k (topics s) <> None ->
  exists i, lookup k (topics (exec (register_subscriber topic c) s)) = Some i
            /\ count_occ Nat.eq_dec (subscribers i) c = 1.
Proof.
  intros HI Hh Hl. pose proof (Inv_register_subscriber topic c s HI) as HI'.
  assert (Hin : exists i,
             lookup k (topics (exec (register_subscriber topic c) s)) = Some i
             /\ In c (subscribers i)).
  { unfold exec. rewrite (register_subscriber_run _ _ _ _ Hh). simpl.
    destruct (lookup k (topics s)) as [i | ] eqn:E; [ | congruence].
    destruct (mem c (subscribers i)) eqn:Em; simpl.
    - exists i. split; [exact E | apply mem_In; exact Em].
    - eexists. split; [apply lookup_setitem_same | ].
      simpl. apply in_or_app. right. left. reflexivity. }
  destruct Hin as [i [Hi Hc]]. exists i. split; [exact Hi | ].
  destruct HI' as [_ Hn].
  pose proof (subscribers_nodup_lookup _ _ _ Hn Hi) as Hnd.
  rewrite (NoDup_count_occ Nat.eq_dec) in Hnd. specialize (Hnd c).
  apply (count_occ_In Nat.eq_dec) in Hc. lia.
Qed.

(** ** Producer registration *)


Lemma created_reply_created (k : key) (c : conn) :
  is_created_reply (c, Text ("New topic registered: " ++ py_str k)) = true.
Proof. reflexivity. Qed.







(** ** Producer withdrawal *)

Lemma handle_disconnection_absent (k : key) (c : conn) (s : server) :
  unique_keys (topics s) -> lookup k (topics s) = None ->
  lookup k (topics (handle_disconnection c s)) = None.
Proof.
  intros Hu Hl. rewrite (handle_disconnection_topics c s Hu).
  eapply lookup_None_keys.
  - symmetry. apply without_subscriber_keys.
  - apply lookup_filter_None. exact Hl.
Qed.

(** Only a producer registration brings a topic name into the registry. *)
Lemma absent_step (k : key) (e : event) (s : server) :
  Inv s -> lookup k (topics s) = None -> ~ registers_producer k e ->
  lookup k (topics (step e s)) = None.
Proof.
  intros [Hu Hn] Hl Hreg. destruct e as [data c | c]; simpl.
  2: { apply handle_disconnection_absent; assumption. }
  destruct data as [ | b | z | t | l | d]; try exact Hl.
  rewrite process_message_route.
  destruct (route d) as [a | ] eqn:Hr; [ | exact Hl].
  destruct (py_hash (dict_get "topic" d)) as [k' | ex] eqn:Hh.
  - destruct a; unfold perform, exec.
    + rewrite (register_producer_run _ _ _ _ _ Hh). simpl.
      destruct (lookup k' (topics s)); [exact Hl | ]. simpl.
      apply lookup_app_None. split; [exact Hl | ]. simpl.
      destruct (key_eqb k k') eqn:E; [ | reflexivity].
      exfalso. apply Hreg. exists d, c, k'. rewrite key_eqb_sym.
      repeat split; assumption.
    + rewrite (register_subscriber_run _ _ _ _ Hh). simpl.
      destruct (lookup k' (topics s)) as [i | ] eqn:E; [ | exact Hl].
      destruct (mem c (subscribers i)); [exact Hl | ]. simpl.
      eapply lookup_None_keys; [ | exact Hl].
      symmetry. apply setitem_present_keys. congruence.
    + rewrite (withdraw_subscriber_run _ _ _ _ Hh). simpl.
      destruct (lookup k' (topics s)) as [i | ] eqn:E; [ | exact Hl].
      destruct (mem c (subscribers i)); [ | exact Hl]. simpl.
      eapply lookup_None_keys; [ | exact Hl].
      symmetry. apply setitem_present_keys. congruence.
    + rewrite (withdraw_producer_run _ _ _ _ Hh). simpl.
      destruct (lookup k' (topics s)) as [i | ]; [ | exact Hl].
      destruct (Nat.eqb (producer i) c); [ | exact Hl]. simpl.
      apply lookup_delitem_None. exact Hl.
    + change (lookup k (topics (exec
               (publish (dict_get "topic" d) c (dict_get "payload" d)) s))
              = None).
      rewrite publish_topics. exact Hl.
    + exact Hl.
  - destruct a; try exact Hl;
      unfold perform; run_branch Hh; exact Hl.
Qed.

Lemma absent_run_events (k : key) (es : list event) (s : server) :
  Inv s -> lookup k (topics s) = None ->
  Forall (fun e => ~ registers_producer k e) es ->
  lookup k (topics (run_events es s)) = None.
Proof.
  intros HI Hl Hall. revert s HI Hl.
  induction Hall as [ | e es He Hes IH]; intros s HI Hl.
  - exact Hl.
  - simpl. apply IH.
    + apply Inv_step. exact HI.
    + apply absent_step; assumption.
Qed.

(** On an absent topic, [publish] and [register_subscriber] answer that the
    topic does not exist and change nothing. *)
Lemma absent_topic_reply (d : dict) (c : conn) (s : server) (a : action)
  (k : key) :
  route d = Some a -> a = Publish \/ a = RegisterSubscriber ->
  py_hash (dict_get "topic" d) = Ok k -> lookup k (topics s) = None ->
  process_message (JObj d) c s
  = (Ok tt,
     mk_server (topics s)
       (kkw s ++ [(c, Text ("Topic " ++ py_str k ++ " doesn't exist."))])).
Proof.
  intros Hr Ha Hh Hl. rewrite process_message_route, Hr.
  destruct Ha as [-> | ->]; unfold perform.
  - rewrite (publish_run _ _ _ _ _ Hh), Hl. reflexivity.
  - rewrite (register_subscriber_run _ _ _ _ Hh), Hl. reflexivity.
Qed.

(** C2: when the producer of a topic withdraws it, the reply is the
    "withdrawn" text and the topic's entry, subscribers included, leaves the
    registry in that one step, the other topics staying as they were; from
    then on, and as long as no producer registers the name again, every
    publish and every subscriber registration on that name is answered with
    "doesn't exist" and changes nothing. *)
Theorem withdraw_producer_removes_topic (d : dict) (c : conn) (s : server)
  (k : key) (i : info) :
  reachable s ->
  route d = Some WithdrawProducer ->
  py_hash (dict_get "topic" d) = Ok k ->
  lookup k (topics s) = Some i -> producer i = c ->
  let s' := exec (process_message (JObj d) c) s in
  process_message (JObj d) c s
  = (Ok tt,
     mk_server (delitem k (topics s))
       (kkw s ++ [(c, Text ("Topic " ++ py_str k ++ " has been withdrawn."))]))
  /\ lookup k (topics s') = None
  /\ (forall k', key_eqb k' k = false ->
      lookup k' (topics s') = lookup k' (topics s))
  /\ (forall es, Forall (fun e => ~ registers_producer k e) es ->
      let s2 := run_events es s' in
      lookup k (topics s2) = None
      /\ forall d2 c2 a2 k2,
          route d2 = Some a2 -> a2 = Publish \/ a2 = RegisterSubscriber ->
          py_hash (dict_get "topic" d2) = Ok k2 -> key_eqb k2 k = true ->
          process_message (JObj d2) c2 s2
          = (Ok tt,
             mk_server (topics s2)
               (kkw s2 ++ [(c2, Text ("Topic " ++ py_str k2
                                      ++ " doesn't exist."))]))).
Proof.
  intros Hreach Hr Hh Hl Hp s'.
  assert (Hrun : process_message (JObj d) c s
                 = (Ok tt,
                    mk_server (delitem k (topics s))
                      (kkw s ++ [(c, Text ("Topic " ++ py_str k
                                           ++ " has been withdrawn."))]))).
  { rewrite process_message_route, Hr. unfold perform.
    rewrite (withdraw_producer_run _ _ _ _ Hh), Hl.
    apply Nat.eqb_eq in Hp. rewrite Hp. reflexivity. }
  assert (Hs' : topics s' = delitem k (topics s)).
  { unfold s', exec. rewrite Hrun. reflexivity. }
  assert (Habs : lookup k (topics s') = None).
  { rewrite Hs'. apply lookup_delitem_same. }
  split; [exact Hrun | ]. split; [exact Habs | ]. split.
  - intros k' Hk'. rewrite Hs'. apply lookup_delitem_other. exact Hk'.
  - intros es Hes s2.
    assert (HI' : Inv s').
    { apply (Inv_step (Message (JObj d) c)). apply reachable_Inv.
      exact Hreach. }
    assert (Habs2 : lookup k (topics s2) = None).
    { apply absent_run_events; assumption. }
    split; [exact Habs2 | ].
    intros d2 c2 a2 k2 Hr2 Ha2 Hh2 Hk2.
    apply (absent_topic_reply d2 c2 s2 a2 k2 Hr2 Ha2 Hh2).
    rewrite (lookup_equal_keys k2 k _ Hk2). exact Habs2.
Qed.

(** ** Publishing *)

Lemma route_message (d : dict) :
  dict_get "type" d = JStr "message" -> route d = Some Publish.
Proof. unfold route. intros ->. reflexivity. Qed.

(** C4: a message envelope never changes the topic map; sent by the
    topic's producer it queues one [{topic, payload}] message for each
    current subscriber, in order, and nothing else; sent by another socket
    it queues the not-a-producer text for the sender alone; on an absent
    topic it queues the doesn't-exist text for the sender alone. *)
Theorem publish_never_mutates (d : dict) (c : conn) (s : server) :
  dict_get "type" d = JStr "message" ->
  topics (exec (process_message (JObj d) c) s) = topics s
  /\ forall k, py_hash (dict_get "topic" d) = Ok k ->
     (forall i, lookup k (topics s) = Some i -> producer i = c ->
      process_message (JObj d) c s
      = (Ok tt,
         mk_server (topics s)
           (kkw s ++ map (fun sub =>
                            (sub, Dumps (JObj [("topic", dict_get "topic" d);
                                               ("payload",
                                                dict_get "payload" d)])))
                       (subscribers i))))
     /\ (forall i, lookup k (topics s) = Some i -> producer i <> c ->
         process_message (JObj d) c s
         = (Ok tt,
            mk_server (topics s)
              (kkw s ++ [(c, Text ("You are not a producer of topic "
                                   ++ py_str k ++ "."))])))
     /\ (lookup k (topics s) = None ->
         process_message (JObj d) c s
         = (Ok tt,
            mk_server (topics s)
              (kkw s ++ [(c, Text ("Topic " ++ py_str k
                                   ++ " doesn't exist."))]))).
Proof.
  intros Hty. pose proof (route_message d Hty) as Hr.
  rewrite process_message_route, Hr. unfold perform. split.
  - apply publish_topics.
  - intros k Hh. repeat split.
    + intros i Hl Hp. rewrite (publish_run _ _ _ _ _ Hh), Hl.
      apply Nat.eqb_eq in Hp. rewrite Hp. reflexivity.
    + intros i Hl Hp. rewrite (publish_run _ _ _ _ _ Hh), Hl.
      apply Nat.eqb_neq in Hp. rewrite Hp. reflexivity.
    + intros Hl. rewrite (publish_run _ _ _ _ _ Hh), Hl. reflexivity.
Qed.

(** ** The registry invariants *)

(** C3: each of the seven registry operations keeps the invariants (no two
    entries for one topic name, no socket twice in a subscriber list); under
    them every topic that is present has exactly one producer; and a
    subscriber registration on a present topic leaves the caller once in
    the subscriber list, a second one being answered already_subscribed
    without any change of the registry. *)
Theorem registry_invariants_preserved (s : server) (topic id payload : json)
  (d : dict) (c : conn) :
  Inv s ->
  Inv (exec (register_producer topic c id) s)
  /\ Inv (exec (register_subscriber topic c) s)
  /\ Inv (exec (withdraw_producer topic c) s)
  /\ Inv (exec (withdraw_subscriber topic c) s)
  /\ Inv (exec (publish topic c payload) s)
  /\ Inv (exec (snapshot_status d c) s)
  /\ Inv (handle_disconnection c s)
  /\ (forall k, lookup k (topics s) <> None ->
      exists p, producer_of s k p /\ forall p', producer_of s k p' -> p' = p)
  /\ (forall k i, In (k, i) (topics s) -> NoDup (subscribers i))
  /\ (forall k, py_hash topic = Ok k -> lookup k (topics s) <> None ->
      let s1 := exec (register_subscriber topic c) s in
      (exists i, lookup k (topics s1) = Some i
                 /\ count_occ Nat.eq_dec (subscribers i) c = 1)
      /\ register_subscriber topic c s1
         = (Ok tt,
            mk_server (topics s1)
              (kkw s1 ++ [(c, Text ("You already are a subscriber of topic "
                                    ++ py_str k ++ "."))]))).
Proof.
  intros HI.
  split; [apply Inv_register_producer; exact HI | ].
  split; [apply Inv_register_subscriber; exact HI | ].
  split; [apply Inv_withdraw_producer; exact HI | ].
  split; [apply Inv_withdraw_subscriber; exact HI | ].
  split; [eapply Inv_same_topics; [apply publish_topics | exact HI] | ].
  split; [exact HI | ].
  split; [apply Inv_handle_disconnection; exact HI | ].
  split; [intros k; apply Inv_one_producer; exact HI | ].
  split.
  - intros k i Hin. destruct HI as [_ Hn]. unfold subscribers_nodup in Hn.
    rewrite Forall_forall in Hn. exact (Hn _ Hin).
  - intros k Hh Hl s1.
    destruct (register_subscriber_once topic c s k HI Hh Hl) as [i [Hi Hc]].
    split; [exists i; auto | ].
    assert (Hi' : lookup k (topics s1) = Some i) by exact Hi.
    rewrite (register_subscriber_run topic c s1 k Hh), Hi'.
    assert (mem c (subscribers i) = true) as ->.
    { apply mem_In. apply (count_occ_In Nat.eq_dec). lia. }
    reflexivity.
Qed.

(** ** Disconnection *)






(** ** Conflicts *)

(** C9: when the operation an envelope is routed to meets a conflict
    (name_taken, already_producer, already_subscribed, not_producer,
    not_subscriber, no_such_topic), exactly one message is queued, the
    descriptive text addressed to the sender, and the topic map is the one
    before the call. *)
Theorem conflict_replies_once_and_keeps_state (d : dict) (c : conn)
  (s : server) (a : action) (k : key) :
  route d = Some a ->
  py_hash (dict_get "topic" d) = Ok k ->
  is_conflict (spec_outcome a k c (topics s)) = true ->
  process_message (JObj d) c s
  = (Ok tt,
     mk_server (topics s)
       (kkw s ++ [(c, Text (conflict_text
                              (spec_outcome a k c (topics s)) k))])).
Proof.
  intros Hr Hh. rewrite process_message_route, Hr.
  unfold spec_outcome, perform. destruct a.
  - rewrite (register_producer_run _ _ _ _ _ Hh).
    destruct (lookup k (topics s)) as [i | ]; [ | discriminate].
    destruct (Nat.eqb (producer i) c); reflexivity.
  - rewrite (register_subscriber_run _ _ _ _ Hh).
    destruct (lookup k (topics s)) as [i | ]; [ | reflexivity].
    destruct (mem c (subscribers i)); [reflexivity | discriminate].
  - rewrite (withdraw_subscriber_run _ _ _ _ Hh).
    destruct (lookup k (topics s)) as [i | ]; [ | reflexivity].
    destruct (mem c (subscribers i)); [discriminate | reflexivity].
  - rewrite (withdraw_producer_run _ _ _ _ Hh).
    destruct (lookup k (topics s)) as [i | ]; [ | reflexivity].
    destruct (Nat.eqb (producer i) c); [discriminate | reflexivity].
  - rewrite (publish_run _ _ _ _ _ Hh).
    destruct (lookup k (topics s)) as [i | ]; [ | reflexivity].
    destruct (Nat.eqb (producer i) c); [discriminate | reflexivity].
  - discriminate.
Qed.

(** ** Routing *)

Lemma eq_str_true (x : json) (lit : string) :
  eq_str x lit = true <-> x = JStr lit.
Proof.
  destruct x; simpl; try (split; [discriminate | intros H; inversion H]).
  - rewrite String.eqb_eq. split; congruence.
Qed.

Lemma in_strs_one_of (x : json) (lits : list string) :
  in_strs x lits = true <-> one_of x lits.
Proof.
  unfold in_strs, one_of. rewrite existsb_exists.
  split; intros [lit [Hin H]]; exists lit; split; auto; apply eq_str_true; auto.
Qed.

Lemma route_status (d : dict) :
  dict_get "type" d = JStr "status" -> route d = Some Status.
Proof. unfold route. intros ->. reflexivity. Qed.

Lemma route_unknown (d : dict) (c : conn) (s : server) :
  route d = None -> process_message (JObj d) c s = unknown_reply c s.
Proof.
  intros Hr. rewrite process_message_route, Hr. reflexivity.
Qed.

Ltac not_the_unknown_reply :=
  unfold unknown_reply; intros Heq; inversion Heq as [Hq];
  apply app_inv_head in Hq; discriminate Hq.

(** No branch queues the reply of the final [else]. *)
Lemma perform_not_unknown (a : action) (d : dict) (c : conn) (s : server) :
  perform a d c s <> unknown_reply c s.
Proof.
  destruct (py_hash (dict_get "topic" d)) as [k | e] eqn:Hh.
  - destruct a; unfold perform.
    + rewrite (register_producer_run _ _ _ _ _ Hh).
      destruct (lookup k (topics s)) as [i | ].
      * destruct (Nat.eqb (producer i) c); not_the_unknown_reply.
      * unfold unknown_reply. intros Heq. inversion Heq as [[Ht Hq]].
        apply app_inv_head in Hq. discriminate Hq.
    + rewrite (register_subscriber_run _ _ _ _ Hh).
      destruct (lookup k (topics s)) as [i | ]; [ | not_the_unknown_reply].
      destruct (mem c (subscribers i)); [not_the_unknown_reply | ].
      unfold unknown_reply. intros Heq. inversion Heq as [[Ht Hq]].
      apply app_inv_head in Hq. discriminate Hq.
    + rewrite (withdraw_subscriber_run _ _ _ _ Hh).
      destruct (lookup k (topics s)) as [i | ]; [ | not_the_unknown_reply].
      destruct (mem c (subscribers i)); [ | not_the_unknown_reply].
      unfold unknown_reply. intros Heq. inversion Heq as [[Ht Hq]].
      apply app_inv_head in Hq. discriminate Hq.
    + rewrite (withdraw_producer_run _ _ _ _ Hh).
      destruct (lookup k (topics s)) as [i | ]; [ | not_the_unknown_reply].
      destruct (Nat.eqb (producer i) c); [ | not_the_unknown_reply].
      unfold unknown_reply. intros Heq. inversion Heq as [[Ht Hq]].
      apply app_inv_head in Hq. discriminate Hq.
    + rewrite (publish_run _ _ _ _ _ Hh).
      destruct (lookup k (topics s)) as [i | ]; [ | not_the_unknown_reply].
      destruct (Nat.eqb (producer i) c); [ | not_the_unknown_reply].
      unfold unknown_reply. intros Heq. inversion Heq as [Hq].
      apply app_inv_head in Hq.
      destruct (subscribers i) as [ | sub subs]; discriminate Hq.
    + rewrite snapshot_status_run. not_the_unknown_reply.
  - destruct a;
      try (unfold perform; run_branch Hh; unfold unknown_reply; discriminate).
    unfold perform. rewrite snapshot_status_run. not_the_unknown_reply.
Qed.

(** ** The validator *)

Lemma check_keys_dict (keys : list string) (d : dict) :
  check_keys keys (JObj d) = Ok (forallb (fun key => dict_mem key d) keys).
Proof.
  induction keys as [ | key keys IH]; simpl.
  - reflexivity.
  - destruct (dict_mem key d); simpl; [exact IH | reflexivity].
Qed.

Lemma dict_getitem_mem (k : string) (d : dict) :
  dict_mem k d = true -> dict_getitem k d = Ok (dict_get k d).
Proof.
  unfold dict_get. induction d as [ | [k' v] d IH]; simpl.
  - discriminate.
  - destruct (String.eqb k k'); auto.
Qed.

(** The body of the [try] on a dict that has the six keys. *)
Lemma validate_body_present (iso : string -> bool) (d : dict) :
  forallb (fun key => dict_mem key d) required_keys = true ->
  validate_body iso (JObj d)
  = match fromisoformat iso (dict_get "timestamp" d) with
    | Raise e => Raise e
    | Ok _ =>
        if negb (in_strs (dict_get "type" d)
                   ["register"; "withdraw"; "message"; "status"])
        then Ok false
        else if negb (in_strs (dict_get "mode" d) ["producer"; "subscriber"])
                && negb (in_strs (dict_get "type" d) ["status"])
        then Ok false else Ok true
    end.
Proof.
  intros Hk. unfold validate_body. rewrite check_keys_dict, Hk.
  rewrite forallb_forall in Hk. unfold py_getitem.
  rewrite !dict_getitem_mem by (apply Hk; simpl; tauto).
  reflexivity.
Qed.

Lemma validate_kom_not_dict (iso : string -> bool) (data : json) :
  (forall d, data <> JObj d) -> validate_kom iso data = Ok false.
Proof.
  intros Hnd. unfold validate_kom, validate_body.
  destruct data as [ | b | z | t | l | d];
    try reflexivity;
    try (destruct (check_keys required_keys _) as [[ | ] | e]; reflexivity).
  exfalso. apply (Hnd d). reflexivity.
Qed.

Lemma validate_kom_total (iso : string -> bool) (data : json) :
  validate_kom iso data = Ok true \/ validate_kom iso data = Ok false.
Proof.
  unfold validate_kom.
  destruct (validate_body iso data) as [[ | ] | e]; auto.
Qed.

Lemma validate_kom_dict (iso : string -> bool) (d : dict) :
  validate_kom iso (JObj d) = Ok true <-> well_formed iso d.
Proof.
  unfold well_formed. rewrite <- !in_strs_one_of.
  rewrite <- (eq_str_true (dict_get "type" d) "status").
  rewrite Forall_forall, <- forallb_forall.
  destruct (forallb (fun key => dict_mem key d) required_keys) eqn:Hk.
  - unfold validate_kom. rewrite (validate_body_present iso d Hk).
    assert (Hst : in_strs (dict_get "type" d) ["status"]
                  = eq_str (dict_get "type" d) "status").
    { unfold in_strs. simpl. apply orb_false_r. }
    rewrite Hst. unfold fromisoformat.
    destruct (dict_get "timestamp" d) as [ | b | z | ts | l | o];
      try (split; [discriminate | intros [_ [[ts' [H _]] _]]; discriminate]).
    destruct (iso ts) eqn:Hiso.
    + destruct (in_strs (dict_get "type" d)
                  ["register"; "withdraw"; "message"; "status"]) eqn:Hty;
        cbn [negb].
      * destruct (in_strs (dict_get "mode" d) ["producer"; "subscriber"])
          eqn:Hmo; cbn [negb andb].
        -- split; [ | reflexivity]. intros _. repeat split; eauto.
        -- destruct (eq_str (dict_get "type" d) "status") eqn:Hs;
             cbn [negb].
           ++ split; [ | reflexivity]. intros _. repeat split; eauto.
           ++ split; [discriminate | ].
              intros [_ [_ [_ [H | H]]]]; discriminate.
      * split; [discriminate | ]. intros [_ [_ [H _]]]. discriminate.
    + split; [discriminate | ].
      intros [_ [[ts' [H1 H2]] _]]. inversion H1. subst. congruence.
  - unfold validate_kom, validate_body. rewrite check_keys_dict, Hk.
    split; [discriminate | ]. intros [H _]. discriminate.
Qed.

Lemma validate_kom_true_iff (iso : string -> bool) (data : json) :
  validate_kom iso data = Ok true
  <-> exists d, data = JObj d /\ well_formed iso d.
Proof.
  split.
  - intros Hv. destruct data as [ | b | z | t | l | d];
      try (rewrite validate_kom_not_dict in Hv;
           [discriminate | intros d' Hd'; discriminate]).
    exists d. split; [reflexivity | ]. apply validate_kom_dict. exact Hv.
  - intros [d [-> Hwf]]. apply validate_kom_dict. exact Hwf.
Qed.

(** C7: [validate_kom] always returns a boolean, never an exception; it
    returns true exactly for a dict that has the six required keys, whose
    timestamp is a string the date-time parser accepts, whose type is one
    of the four kinds, and whose mode is producer or subscriber unless the
    type is status; and a message that fails validation is dropped by the
    monitor with the server's state untouched. *)
Theorem validate_kom_spec (iso : string -> bool) (data : json) :
  (validate_kom iso data = Ok true \/ validate_kom iso data = Ok false)
  /\ (validate_kom iso data = Ok true
      <-> exists d, data = JObj d /\ well_formed iso d)
  /\ (validate_kom iso data = Ok false ->
      forall c s, monitor_step iso data c s = s).
Proof.
  split; [apply validate_kom_total | ]. split.
  - apply validate_kom_true_iff.
  - intros Hv c s. unfold monitor_step. rewrite Hv. reflexivity.
Qed.

(** The reply of the final [else] is queued exactly when no branch is
    taken. *)
Lemma unknown_reply_iff (d : dict) (c : conn) (s : server) :
  process_message (JObj d) c s = unknown_reply c s <-> route d = None.
Proof.
  split.
  - intros H. destruct (route d) as [a | ] eqn:Hr; [ | reflexivity].
    rewrite process_message_route, Hr in H.
    exfalso. exact (perform_not_unknown a d c s H).
  - apply route_unknown.
Qed.

Lemma well_formed_routed (iso : string -> bool) (d : dict) :
  well_formed iso d ->
  exists a, route d = Some a
            /\ routed_as (dict_get "type" d) (dict_get "mode" d) a.
Proof.
  intros [_ [_ [[ty [Hty Ety]] Hmode]]]. unfold route, routed_as.
  rewrite Ety. simpl in Hty.
  destruct Hty as [<- | [<- | [<- | [<- | []]]]].
  - destruct Hmode as [[mo [Hmo Emo]] | H]; [ | rewrite Ety in H; discriminate].
    rewrite Emo. simpl in Hmo. destruct Hmo as [<- | [<- | []]]; simpl.
    + exists RegisterProducer. tauto.
    + exists RegisterSubscriber. tauto.
  - destruct Hmode as [[mo [Hmo Emo]] | H]; [ | rewrite Ety in H; discriminate].
    rewrite Emo. simpl in Hmo. destruct Hmo as [<- | [<- | []]]; simpl.
    + exists WithdrawProducer. tauto.
    + exists WithdrawSubscriber. tauto.
  - destruct Hmode as [[mo [Hmo Emo]] | H]; [ | rewrite Ety in H; discriminate].
    rewrite Emo. simpl in Hmo. exists Publish. split; [reflexivity | ].
    do 4 right. left. destruct Hmo as [<- | [<- | []]]; tauto.
  - exists Status. split; [reflexivity | ]. do 5 right. tauto.
Qed.

(** C5, as written, fails: the validated envelope of type message and mode
    subscriber, sent by the producer of [temp], is not one of the listed
    rows, yet it is published to the subscriber instead of being answered
    "Unknown message type.". *)
Lemma message_with_mode_subscriber_is_published :
  validate_kom iso_sample
    (envelope "message" (JStr "P") (JStr "temp") "subscriber" (JStr "hello"))
  = Ok true
  /\ listed_row
       (fields "message" (JStr "P") (JStr "temp") "subscriber" (JStr "hello"))
     = false
  /\ process_message
       (envelope "message" (JStr "P") (JStr "temp") "subscriber" (JStr "hello"))
       1 sample_state
     = (Ok tt,
        mk_server (topics sample_state)
          (kkw sample_state
           ++ [(2, Dumps (JObj [("topic", JStr "temp");
                                ("payload", JStr "hello")]))]))
  /\ process_message
       (envelope "message" (JStr "P") (JStr "temp") "subscriber" (JStr "hello"))
       1 sample_state
     <> unknown_reply 1 sample_state.
Proof.
  split; [reflexivity | ]. split; [reflexivity | ].
  split; [reflexivity | ]. apply perform_not_unknown with (a := Publish).
Qed.

(** C5, amended: a validated envelope is a dict that takes one of the six
    branches, chosen by type and mode, a message being published whatever
    its mode; it is never answered "Unknown message type.", the reply that
    is queued exactly for the dicts that take no branch. *)
Theorem validated_envelopes_are_routed (iso : string -> bool) (data : json)
  (c : conn) :
  validate_kom iso data = Ok true ->
  (exists d a,
      data = JObj d
      /\ route d = Some a
      /\ routed_as (dict_get "type" d) (dict_get "mode" d) a
      /\ process_message data c = perform a d c
      /\ forall s, process_message data c s <> unknown_reply c s)
  /\ forall d' s',
      process_message (JObj d') c s' = unknown_reply c s' <-> route d' = None.
Proof.
  intros Hv. split; [ | intros d' s'; apply unknown_reply_iff].
  destruct (proj1 (validate_kom_true_iff iso data) Hv) as [d [-> Hwf]].
  destruct (well_formed_routed iso d Hwf) as [a [Hr Ha]].
  exists d, a. split; [reflexivity | ]. split; [exact Hr | ].
  split; [exact Ha | ]. split.
  - rewrite process_message_route, Hr. reflexivity.
  - intros s. rewrite process_message_route, Hr. apply perform_not_unknown.
Qed.

(** ** Status *)

Lemma dict_get_set_same (k : string) (v : json) (d : dict) :
  dict_get k (dict_set k v d) = v.
Proof.
  unfold dict_get. induction d as [ | [k' v'] d IH]; simpl.
  - rewrite String.eqb_refl. reflexivity.
  - destruct (String.eqb k k') eqn:E; simpl; rewrite E; auto.
Qed.

Lemma dict_get_set_other (k k' : string) (v : json) (d : dict) :
  String.eqb k' k = false -> dict_get k' (dict_set k v d) = dict_get k' d.
Proof.
  intros Hne. unfold dict_get. induction d as [ | [k0 v0] d IH]; simpl.
  - rewrite Hne. reflexivity.
  - destruct (String.eqb k k0) eqn:E; simpl.
    + apply String.eqb_eq in E. subst k0. rewrite Hne. reflexivity.
    + destruct (String.eqb k' k0); [reflexivity | exact IH].
Qed.

(** C8: a status envelope leaves the registry as it is and queues, for the
    requester alone, the dump of the request with its payload replaced by
    the list of [{"topic": name, "id": producer_id}], one per topic, in the
    order of the registry; the type field of the reply is "status"; with
    topics [a] (owner [id1]) and [b] (owner [id2]) the payload is
    [[{"topic":"a","id":"id1"},{"topic":"b","id":"id2"}]]. *)
Theorem status_reply_lists_topics (d : dict) (c : conn) (s : server) :
  dict_get "type" d = JStr "status" ->
  let reply := dict_set "payload" (JArr (map status_entry (topics s))) d in
  process_message (JObj d) c s
  = (Ok tt, mk_server (topics s) (kkw s ++ [(c, Dumps (JObj reply))]))
  /\ dict_get "type" reply = JStr "status"
  /\ dict_get "payload" reply
     = JArr (map (fun e => JObj [("topic", json_of_key (fst e));
                                 ("id", producer_id (snd e))]) (topics s))
  /\ (forall c1 c2 subs1 subs2,
      topics s = [(KStr "a", mk_info c1 (JStr "id1") subs1);
                  (KStr "b", mk_info c2 (JStr "id2") subs2)] ->
      dict_get "payload" reply
      = JArr [JObj [("topic", JStr "a"); ("id", JStr "id1")];
              JObj [("topic", JStr "b"); ("id", JStr "id2")]]).
Proof.
  intros Hty reply. split.
  - rewrite process_message_route, (route_status d Hty). reflexivity.
  - split.
    + unfold reply. rewrite dict_get_set_other by reflexivity. exact Hty.
    + split.
      * unfold reply. apply dict_get_set_same.
      * intros c1 c2 subs1 subs2 Ht. unfold reply.
        rewrite dict_get_set_same, Ht. reflexivity.
Qed.

(** ** Exceptions in [process_message] *)

(** With a hashable topic every branch returns. *)
Lemma process_message_hashable (d : dict) (c : conn) (s : server) (k : key) :
  py_hash (dict_get "topic" d) = Ok k ->
  exists s', process_message (JObj d) c s = (Ok tt, s').
Proof.
  intros Hh. rewrite process_message_route.
  destruct (route d) as [a | ]; [ | eexists; reflexivity].
  destruct a; unfold perform.
  - rewrite (register_producer_run _ _ _ _ _ Hh). eexists. reflexivity.
  - rewrite (register_subscriber_run _ _ _ _ Hh). eexists. reflexivity.
  - rewrite (withdraw_subscriber_run _ _ _ _ Hh). eexists. reflexivity.
  - rewrite (withdraw_producer_run _ _ _ _ Hh). eexists. reflexivity.
  - rewrite (publish_run _ _ _ _ _ Hh). eexists. reflexivity.
  - rewrite snapshot_status_run. eexists. reflexivity.
Qed.

(** C10 does not hold of the code: a dict whose topic is a list passes
    validation, and [process_message] raises [TypeError] on it, at
    [topic in self.topics], leaving the state as it was and queuing no
    reply; the same happens in the five branches that look the topic up. *)
Theorem unhashable_topic_raises (c : conn) (s : server) :
  validate_kom iso_sample
    (envelope "register" (JStr "P") (JArr []) "producer" (JObj []))
  = Ok true
  /\ process_message
       (envelope "register" (JStr "P") (JArr []) "producer" (JObj [])) c s
     = (Raise TypeError, s)
  /\ forall ty mode,
      In (ty, mode) [("register", "producer"); ("register", "subscriber");
                     ("withdraw", "producer"); ("withdraw", "subscriber");
                     ("message", "producer")] ->
      process_message
        (envelope ty (JStr "P") (JArr []) mode (JObj [])) c s
      = (Raise TypeError, s).
Proof.
  split; [reflexivity | ]. split; [reflexivity | ].
  intros ty mode Hin. simpl in Hin.
  destruct Hin as [H | [H | [H | [H | [H | []]]]]]; inversion H; reflexivity.
Qed.

(** ** The statements at concrete inputs *)

Lemma sample_state_reachable : reachable sample_state.
Proof.
  change sample_state with
    (step (Message (envelope "register" (JStr "S") (JStr "temp")
                      "subscriber" (JObj [])) 2)
       (step (Message (envelope "register" (JStr "P") (JStr "temp")
                         "producer" (JObj [])) 1) init)).
  apply reachable_step. apply reachable_step. apply reachable_init.
Defined.


Lemma withdraw_producer_removes_topic_witness :
  lookup (KStr "temp")
    (topics (exec (process_message
                     (envelope "withdraw" (JStr "P") (JStr "temp") "producer"
                        (JObj [])) 1) sample_state))
  = None.
Proof.
  refine (proj1 (proj2
    (withdraw_producer_removes_topic
       (fields "withdraw" (JStr "P") (JStr "temp") "producer" (JObj []))
       1 sample_state (KStr "temp") (mk_info 1 (JStr "P") [2]) _ _ _ _ _))).
  - exact sample_state_reachable.
  - reflexivity.
  - reflexivity.
  - reflexivity.
  - reflexivity.
Defined.

Lemma registry_invariants_preserved_witness :
  Inv sample_state /\ Inv (handle_disconnection 2 sample_state).
Proof.
  assert (HI : Inv sample_state).
  { split; simpl.
    - split; [reflexivity | exact I].
    - repeat constructor; simpl; tauto. }
  split; [exact HI | ].
  exact (proj1 (proj2 (proj2 (proj2 (proj2 (proj2 (proj2
    (registry_invariants_preserved sample_state (JStr "temp") (JStr "S")
       JNull [] 2 HI)))))))).
Defined.

Lemma publish_never_mutates_witness :
  topics (exec (process_message
                  (envelope "message" (JStr "P") (JStr "temp") "producer"
                     (JStr "hello")) 1) sample_state)
  = topics sample_state.
Proof.
  refine (proj1
    (publish_never_mutates
       (fields "message" (JStr "P") (JStr "temp") "producer" (JStr "hello"))
       1 sample_state _)).
  reflexivity.
Defined.

Lemma validated_envelopes_are_routed_witness :
  exists d a,
    envelope "message" (JStr "P") (JStr "temp") "subscriber" (JStr "hello")
    = JObj d
    /\ route d = Some a
    /\ routed_as (dict_get "type" d) (dict_get "mode" d) a
    /\ process_message
         (envelope "message" (JStr "P") (JStr "temp") "subscriber"
            (JStr "hello")) 1
       = perform a d 1
    /\ forall s,
        process_message
          (envelope "message" (JStr "P") (JStr "temp") "subscriber"
             (JStr "hello")) 1 s
        <> unknown_reply 1 s.
Proof.
  refine (proj1
    (validated_envelopes_are_routed iso_sample
       (envelope "message" (JStr "P") (JStr "temp") "subscriber"
          (JStr "hello")) 1 _)).
  reflexivity.
Defined.



Lemma status_reply_lists_topics_witness :
  dict_get "payload"
    (dict_set "payload" (JArr (map status_entry (topics scenario_d_state)))
       (fields "status" (JStr "id3") (JStr "logs") EmptyString (JObj [])))
  = JArr [JObj [("topic", JStr "a"); ("id", JStr "id1")];
          JObj [("topic", JStr "b"); ("id", JStr "id2")]].
Proof.
  refine (proj2 (proj2 (proj2
    (status_reply_lists_topics
       (fields "status" (JStr "id3") (JStr "logs") EmptyString (JObj []))
       3 scenario_d_state _))) 1 2 [] [] _).
  - reflexivity.
  - reflexivity.
Defined.

Lemma conflict_replies_once_and_keeps_state_witness :
  process_message
    (envelope "register" (JStr "Q") (JStr "temp") "producer" (JObj []))
    2 sample_state
  = (Ok tt,
     mk_server (topics sample_state)
       (kkw sample_state ++ [(2, Text "Topic temp already exists.")])).
Proof.
  refine (conflict_replies_once_and_keeps_state
            (fields "register" (JStr "Q") (JStr "temp") "producer" (JObj []))
            2 sample_state RegisterProducer (KStr "temp") _ _ _).
  - reflexivity.
  - reflexivity.
  - reflexivity.
Defined.

(** ** The scenarios of the specification, run on the model *)

(** Scenario A: registration, subscription, and a publish that reaches the
    subscriber. *)
Example scenario_a :
  kkw (run_all
         (sample_calls
          ++ [(envelope "message" (JStr "P") (JStr "temp") "producer"
                 (JObj [("reading", JInt 21)]), 1)]) init)
  = [(1, Text "New topic registered: temp");
     (2, Text "Subscribed to topic: temp");
     (2, Dumps (JObj [("topic", JStr "temp");
                      ("payload", JObj [("reading", JInt 21)])]))].
Proof. reflexivity. Qed.

(** Scenario B: the producer disconnects while a subscriber is there; the
    topic goes, and a later subscription finds no topic. *)
Example scenario_b :
  process_message
    (envelope "register" (JStr "S2") (JStr "temp") "subscriber" (JObj []))
    3 (handle_disconnection 1 sample_state)
  = (Ok tt,
     mk_server []
       (kkw sample_state ++ [(3, Text "Topic temp doesn't exist.")])).
Proof. reflexivity. Qed.

(** Scenario C: a socket that is not the producer publishes. *)
Example scenario_c :
  process_message
    (envelope "message" (JStr "C") (JStr "temp") "producer" (JStr "hello"))
    3 sample_state
  = (Ok tt,
     mk_server (topics sample_state)
       (kkw sample_state
        ++ [(3, Text "You are not a producer of topic temp.")])).
Proof. reflexivity. Qed.

(** Keys follow Python's equality: [True] and [1] name the same topic, and
    the topic keeps the key it was registered with. *)
Example true_and_one_are_one_topic :
  exec (process_message
          (envelope "register" (JStr "Q") (JInt 1) "producer" (JObj [])) 2)
    (exec (process_message
             (envelope "register" (JStr "P") (JBool true) "producer"
                (JObj [])) 1) init)
  = mk_server [(KBool true, mk_info 1 (JStr "P") [])]
      [(1, Text "New topic registered: True");
       (2, Text "Topic 1 already exists.")].
Proof. reflexivity. Qed.

(** * Further properties of the broker *)

(** ** What a call queues, and when it raises *)

Lemma queued_by_one_text (c : conn) (s : server) (o : outcome) (k : key) :
  queued_by c s [(c, Text (conflict_text o k))].
Proof. apply queued_text. destruct o; reflexivity. Qed.

Ltac one_text_queued :=
  first [apply queued_by_one_text | apply queued_text; reflexivity].

Lemma perform_queued (a : action) (d : dict) (c : conn) (s : server) :
  exists msgs,
    kkw (exec (perform a d c) s) = kkw s ++ msgs /\ queued_by c s msgs.
Proof.
  destruct (py_hash (dict_get "topic" d)) as [k | e] eqn:Hh.
  - destruct a; unfold perform, exec.
    + rewrite (register_producer_run _ _ _ _ _ Hh).
      destruct (lookup k (topics s)) as [i | ]; eexists; simpl;
        (split; [reflexivity | one_text_queued]).
    + rewrite (register_subscriber_run _ _ _ _ Hh).
      destruct (lookup k (topics s)) as [i | ];
        [destruct (mem c (subscribers i)) | ]; eexists; simpl;
        (split; [reflexivity | one_text_queued]).
    + rewrite (withdraw_subscriber_run _ _ _ _ Hh).
      destruct (lookup k (topics s)) as [i | ];
        [destruct (mem c (subscribers i)) | ]; eexists; simpl;
        (split; [reflexivity | one_text_queued]).
    + rewrite (withdraw_producer_run _ _ _ _ Hh).
      destruct (lookup k (topics s)) as [i | ];
        [destruct (Nat.eqb (producer i) c) | ]; eexists; simpl;
        (split; [reflexivity | one_text_queued]).
    + rewrite (publish_run _ _ _ _ _ Hh).
      destruct (lookup k (topics s)) as [i | ] eqn:El;
        [destruct (Nat.eqb (producer i) c) eqn:Ep | ]; eexists; simpl;
        (split; [reflexivity | ]); try one_text_queued.
      destruct (lookup_In _ _ _ El) as [k0 [Hin _]].
      apply (queued_fanout c s k0 i _ Hin). apply Nat.eqb_eq. exact Ep.
    + rewrite snapshot_status_run. eexists. simpl.
      split; [reflexivity | apply queued_dump].
  - destruct a;
      try (exists []; unfold perform, exec; run_branch Hh;
           rewrite app_nil_r; split; [reflexivity | apply queued_nothing]).
    unfold perform, exec. rewrite snapshot_status_run. eexists. simpl.
    split; [reflexivity | apply queued_dump].
Qed.

(** The outbound queue only grows, by a list of one of the four shapes. *)
Lemma process_message_queued (data : json) (c : conn) (s : server) :
  exists msgs,
    kkw (exec (process_message data c) s) = kkw s ++ msgs
    /\ queued_by c s msgs.
Proof.
  destruct data as [ | b | z | t | l | d];
    try (exists []; simpl; rewrite app_nil_r;
         split; [reflexivity | apply queued_nothing]).
  rewrite process_message_route. destruct (route d) as [a | ].
  - apply perform_queued.
  - eexists. split; [reflexivity | ]. apply queued_text. reflexivity.
Qed.

(** X1: whatever [process_message] is given, the outbound queue keeps what
    it held and no text reply it adds begins with an opening brace, the
    mark by which the client tells a dumped JSON object from a line to
    print. *)
Theorem text_replies_are_not_json (data : json) (c : conn) (s : server) :
  exists msgs,
    kkw (exec (process_message data c) s) = kkw s ++ msgs
    /\ Forall (fun m => forall t, snd m = Text t -> starts_with "{" t = false)
         msgs.
Proof.
  destruct (process_message_queued data c s) as [msgs [Hq Hs]].
  exists msgs. split; [exact Hq | ].
  destruct Hs as [ | t Ht | j | k i j Hin Hp].
  - constructor.
  - constructor; [ | constructor]. simpl. intros t' Ht'.
    inversion Ht'. subst. exact Ht.
  - constructor; [ | constructor]. simpl. discriminate.
  - apply Forall_forall. intros m Hm. apply in_map_iff in Hm.
    destruct Hm as [sub [<- _]]. simpl. discriminate.
Qed.

Lemma py_hash_raises (x : json) (e : exn) :
  py_hash x = Raise e -> e = TypeError.
Proof. destruct x; simpl; intros H; inversion H; reflexivity. Qed.

(** X2: [process_message] raises exactly when its argument is not a dict
    ([AttributeError], from [data.get]) or when one of the five branches
    that look the topic up is given an unhashable topic ([TypeError]); when
    it raises, the topic map and the outbound queue are as they were. *)
Theorem process_message_raises_iff (data : json) (c : conn) (s : server) :
  ((exists e, fst (process_message data c s) = Raise e) <-> raises data)
  /\ (forall e, fst (process_message data c s) = Raise e ->
      snd (process_message data c s) = s
      /\ ((forall d, data <> JObj d) -> e = AttributeError)
      /\ (forall d, data = JObj d -> e = TypeError)).
Proof.
  destruct data as [ | b | z | t | l | d];
    try (split;
         [split; [intros _; left; discriminate | intros _; eexists; reflexivity]
         | intros e He; simpl in He; inversion He; subst;
           split; [reflexivity | split; [reflexivity | discriminate]]]).
  rewrite process_message_route.
  destruct (route d) as [a | ] eqn:Hr.
  - destruct (py_hash (dict_get "topic" d)) as [k | e0] eqn:Hh.
    + assert (Hok : exists s', perform a d c s = (Ok tt, s')).
      { pose proof (process_message_hashable d c s k Hh) as H.
        rewrite process_message_route, Hr in H. exact H. }
      destruct Hok as [s' Hs']. rewrite Hs'. split.
      * split; [intros [e He]; discriminate | ].
        intros [Hnd | [d' [a' [e' [Hd [_ [_ He']]]]]]].
        -- exfalso. apply (Hnd d). reflexivity.
        -- inversion Hd. subst d'. congruence.
      * intros e He. discriminate.
    + destruct (action_is_status a) eqn:Ha.
      * destruct a; try discriminate. unfold perform.
        rewrite snapshot_status_run. split.
        -- split; [intros [e He]; discriminate | ].
           intros [Hnd | [d' [a' [e' [Hd [Hr' [Hns _]]]]]]].
           ++ exfalso. apply (Hnd d). reflexivity.
           ++ inversion Hd. subst d'. congruence.
        -- intros e He. discriminate.
      * assert (Hns : a <> Status) by (destruct a; discriminate).
        rewrite (branch_unhashable a d c s e0 Hns Hh). split.
        -- split; [ | intros _; eexists; reflexivity].
           intros _. right. exists d, a, e0. auto.
        -- intros e He. simpl in He. inversion He. subst e0.
           split; [reflexivity | ]. split.
           ++ intros Hnd. exfalso. apply (Hnd d). reflexivity.
           ++ intros _ _. apply (py_hash_raises _ _ Hh).
  - split.
    + split; [intros [e He]; discriminate | ].
      intros [Hnd | [d' [a' [e' [Hd [Hr' _]]]]]].
      * exfalso. apply (Hnd d). reflexivity.
      * inversion Hd. subst d'. congruence.
    + intros e He. discriminate.
Qed.

(** X3: a call that returns, other than a publish by the topic's own
    producer, is answered by exactly one message, queued for the caller. *)
Theorem one_reply_to_the_sender (d : dict) (c : conn) (s : server) :
  fst (process_message (JObj d) c s) = Ok tt ->
  (forall k i, route d = Some Publish ->
     py_hash (dict_get "topic" d) = Ok k ->
     lookup k (topics s) = Some i -> producer i <> c) ->
  exists m, kkw (exec (process_message (JObj d) c) s) = kkw s ++ [(c, m)].
Proof.
  rewrite process_message_route.
  destruct (route d) as [a | ] eqn:Hr;
    [ | intros _ _; eexists; reflexivity].
  destruct (py_hash (dict_get "topic" d)) as [k | e0] eqn:Hh.
  - intros _ Hpub. destruct a; unfold perform, exec.
    + rewrite (register_producer_run _ _ _ _ _ Hh).
      destruct (lookup k (topics s)); eexists; reflexivity.
    + rewrite (register_subscriber_run _ _ _ _ Hh).
      destruct (lookup k (topics s)) as [i | ];
        [destruct (mem c (subscribers i)) | ]; eexists; reflexivity.
    + rewrite (withdraw_subscriber_run _ _ _ _ Hh).
      destruct (lookup k (topics s)) as [i | ];
        [destruct (mem c (subscribers i)) | ]; eexists; reflexivity.
    + rewrite (withdraw_producer_run _ _ _ _ Hh).
      destruct (lookup k (topics s)) as [i | ];
        [destruct (Nat.eqb (producer i) c) | ]; eexists; reflexivity.
    + rewrite (publish_run _ _ _ _ _ Hh).
      destruct (lookup k (topics s)) as [i | ] eqn:El;
        [ | eexists; reflexivity].
      destruct (Nat.eqb (producer i) c) eqn:Ep; [ | eexists; reflexivity].
      exfalso. apply (Hpub k i eq_refl eq_refl El).
      apply Nat.eqb_eq. exact Ep.
    + rewrite snapshot_status_run. eexists. reflexivity.
  - destruct (action_is_status a) eqn:Ha.
    + destruct a; try discriminate. intros _ _. unfold perform, exec.
      rewrite snapshot_status_run. eexists. reflexivity.
    + assert (Hns : a <> Status) by (destruct a; discriminate).
      rewrite (branch_unhashable a d c s e0 Hns Hh). discriminate.
Qed.

(** ** Topics do not interfere *)

Lemma lookup_app (k : key) (r1 r2 : registry) :
  lookup k (r1 ++ r2)
  = match lookup k r1 with Some i => Some i | None => lookup k r2 end.
Proof.
  induction r1 as [ | [k0 i0] r1 IH]; simpl.
  - reflexivity.
  - destruct (key_eqb k k0); [reflexivity | exact IH].
Qed.

Lemma perform_other_topic (a : action) (d : dict) (c : conn) (s : server)
  (k k' : key) :
  py_hash (dict_get "topic" d) = Ok k -> key_eqb k' k = false ->
  lookup k' (topics (exec (perform a d c) s)) = lookup k' (topics s).
Proof.
  intros Hh Hne. destruct a; unfold perform, exec.
  - rewrite (register_producer_run _ _ _ _ _ Hh).
    destruct (lookup k (topics s)); simpl; [reflexivity | ].
    rewrite lookup_app. simpl. rewrite Hne.
    destruct (lookup k' (topics s)); reflexivity.
  - rewrite (register_subscriber_run _ _ _ _ Hh).
    destruct (lookup k (topics s)) as [i | ]; [ | reflexivity].
    destruct (mem c (subscribers i)); [reflexivity | ]. simpl.
    apply lookup_setitem_other. exact Hne.
  - rewrite (withdraw_subscriber_run _ _ _ _ Hh).
    destruct (lookup k (topics s)) as [i | ]; [ | reflexivity].
    destruct (mem c (subscribers i)); [ | reflexivity]. simpl.
    apply lookup_setitem_other. exact Hne.
  - rewrite (withdraw_producer_run _ _ _ _ Hh).
    destruct (lookup k (topics s)) as [i | ]; [ | reflexivity].
    destruct (Nat.eqb (producer i) c); [ | reflexivity]. simpl.
    apply lookup_delitem_other. exact Hne.
  - change (lookup k' (topics (exec
             (publish (dict_get "topic" d) c (dict_get "payload" d)) s))
            = lookup k' (topics s)).
    rewrite publish_topics. reflexivity.
  - reflexivity.
Qed.

(** X4: a call of [process_message] about one topic leaves every topic
    with a different name as it was: same entry, or still absent. *)
Theorem other_topics_untouched (d : dict) (c : conn) (s : server)
  (k k' : key) :
  py_hash (dict_get "topic" d) = Ok k -> key_eqb k' k = false ->
  lookup k' (topics (exec (process_message (JObj d) c) s))
  = lookup k' (topics s).
Proof.
  intros Hh Hne. rewrite process_message_route.
  destruct (route d) as [a | ]; [ | reflexivity].
  apply (perform_other_topic a d c s k k' Hh Hne).
Qed.

(** ** Only its producer takes a topic away *)

Lemma lookup_without_producer (c : conn) (s : server) (k : key) (i : info) :
  Inv s -> lookup k (topics s) = Some i -> producer i <> c ->
  lookup k (topics (handle_disconnection c s))
  = Some (snd (without_subscriber c (k, i))).
Proof.
  intros HI Hl Hp. pose proof (Inv_handle_disconnection c s HI) as [Hu' _].
  destruct HI as [Hu Hn]. destruct (lookup_In _ _ _ Hl) as [k0 [Hin Hk]].
  rewrite (lookup_equal_keys k k0 _ Hk).
  change (snd (without_subscriber c (k, i)))
    with (snd (without_subscriber c (k0, i))).
  apply unique_keys_lookup; [exact Hu' | ].
  rewrite (handle_disconnection_topics c s Hu).
  change (k0, snd (without_subscriber c (k0, i)))
    with (without_subscriber c (k0, i)).
  apply in_map. apply filter_In. split; [exact Hin | ].
  unfold produced_by. simpl. apply negb_true_iff. apply Nat.eqb_neq. exact Hp.
Qed.

(** X5: in a state the server can reach, nothing a socket other than a
    topic's producer does takes the topic away or changes its producer or
    the producer's id: not a message of any kind, not a disconnection. *)
Theorem only_the_producer_removes_a_topic (e : event) (s : server) (k : key)
  (i : info) :
  reachable s -> lookup k (topics s) = Some i -> sender e <> producer i ->
  exists i',
    lookup k (topics (step e s)) = Some i'
    /\ producer i' = producer i /\ producer_id i' = producer_id i.
Proof.
  intros Hreach Hl Hs. pose proof (reachable_Inv s Hreach) as HI.
  destruct e as [data c | c]; simpl in Hs |- *.
  2: { rewrite (lookup_without_producer c s k i HI Hl); [ | congruence].
       eexists. split; [reflexivity | ]. unfold without_subscriber. simpl.
       destruct (mem c (subscribers i)); auto. }
  destruct data as [ | b | z | t | l | d];
    try solve [exists i; simpl; auto].
  rewrite process_message_route.
  destruct (route d) as [a | ]; [ | exists i; auto].
  destruct (py_hash (dict_get "topic" d)) as [k2 | ex] eqn:Hh.
  2: { exists i. split; [ | auto].
       destruct a; try exact Hl; unfold perform, exec; run_branch Hh;
         exact Hl. }
  destruct (key_eqb k k2) eqn:Hk.
  2: { exists i. rewrite (perform_other_topic a d c s k2 k Hh Hk). auto. }
  assert (Hl2 : lookup k2 (topics s) = Some i).
  { rewrite <- (lookup_equal_keys k k2 _ Hk). exact Hl. }
  assert (Hne : Nat.eqb (producer i) c = false).
  { apply Nat.eqb_neq. congruence. }
  destruct a; unfold perform, exec.
  - rewrite (register_producer_run _ _ _ _ _ Hh), Hl2. exists i. auto.
  - rewrite (register_subscriber_run _ _ _ _ Hh), Hl2.
    destruct (mem c (subscribers i)); [exists i; auto | ]. simpl.
    rewrite (lookup_equal_keys k k2 _ Hk), lookup_setitem_same.
    eexists. split; [reflexivity | auto].
  - rewrite (withdraw_subscriber_run _ _ _ _ Hh), Hl2.
    destruct (mem c (subscribers i)); [ | exists i; auto]. simpl.
    rewrite (lookup_equal_keys k k2 _ Hk), lookup_setitem_same.
    eexists. split; [reflexivity | auto].
  - rewrite (withdraw_producer_run _ _ _ _ Hh), Hl2, Hne. exists i. auto.
  - change (exists i',
             lookup k (topics (exec (publish (dict_get "topic" d) c
                                       (dict_get "payload" d)) s)) = Some i'
             /\ producer i' = producer i /\ producer_id i' = producer_id i).
    rewrite publish_topics. exists i. auto.
  - exists i. auto.
Qed.

(** ** Round trips *)

Lemma setitem_setitem (k : key) (i1 i2 : info) (r : registry) :
  setitem k i2 (setitem k i1 r) = setitem k i2 r.
Proof.
  induction r as [ | [k0 i0] r IH]; simpl.
  - rewrite key_eqb_refl. reflexivity.
  - destruct (key_eqb k k0) eqn:E; simpl; rewrite E.
    + reflexivity.
    + rewrite IH. reflexivity.
Qed.

Lemma setitem_same (k : key) (i : info) (r : registry) :
  lookup k r = Some i -> setitem k i r = r.
Proof.
  induction r as [ | [k0 i0] r IH]; simpl.
  - discriminate.
  - destruct (key_eqb k k0).
    + intros H. inversion H. reflexivity.
    + intros H. rewrite (IH H). reflexivity.
Qed.

Lemma remove_first_snoc (c : conn) (l : list conn) :
  ~ In c l -> remove_first c (l ++ [c]) = l.
Proof.
  induction l as [ | x l IH]; simpl; intros Hnot.
  - rewrite Nat.eqb_refl. reflexivity.
  - destruct (Nat.eqb c x) eqn:E.
    + apply Nat.eqb_eq in E. subst. tauto.
    + rewrite IH by tauto. reflexivity.
Qed.

Lemma set_subscribers_same (i : info) : set_subscribers i (subscribers i) = i.
Proof. destruct i. reflexivity. Qed.

(** X6: subscribing to a topic and then withdrawing the subscription puts
    the registry back exactly as it was, the order of the other
    subscribers included; the caller has been sent the two
    acknowledgements. *)
Theorem subscribe_then_withdraw_restores (topic : json) (c : conn)
  (s : server) (k : key) (i : info) :
  py_hash topic = Ok k -> lookup k (topics s) = Some i ->
  ~ In c (subscribers i) ->
  exec (withdraw_subscriber topic c) (exec (register_subscriber topic c) s)
  = mk_server (topics s)
      (kkw s ++ [(c, Text ("Subscribed to topic: " ++ py_str k));
                 (c, Text ("Subscription of topic " ++ py_str k
                           ++ " has been withdrawn."))]).
Proof.
  intros Hh Hl Hnot. apply mem_false in Hnot.
  unfold exec at 2. rewrite (register_subscriber_run _ _ _ _ Hh), Hl, Hnot.
  unfold exec. rewrite (withdraw_subscriber_run _ _ _ _ Hh). simpl.
  rewrite lookup_setitem_same. simpl.
  assert (mem c (subscribers i ++ [c]) = true) as ->.
  { apply mem_In. apply in_or_app. right. left. reflexivity. }
  rewrite setitem_setitem.
  rewrite remove_first_snoc by (apply mem_false; exact Hnot).
  unfold set_subscribers at 1. simpl.
  change (mk_info (producer i) (producer_id i) (subscribers i))
    with (set_subscribers i (subscribers i)).
  rewrite set_subscribers_same, (setitem_same _ _ _ Hl).
  rewrite <- app_assoc. reflexivity.
Qed.

Lemma delitem_fresh (k : key) (i : info) (r : registry) :
  lookup k r = None -> delitem k (r ++ [(k, i)]) = r.
Proof.
  unfold delitem. induction r as [ | [k0 i0] r IH]; simpl.
  - rewrite key_eqb_refl. reflexivity.
  - destruct (key_eqb k k0); [discriminate | ]. simpl.
    intros H. rewrite (IH H). reflexivity.
Qed.

(** X7: registering a free topic name and withdrawing it again puts the
    registry back exactly as it was; the caller has been sent the two
    acknowledgements. *)
Theorem register_then_withdraw_restores (topic : json) (c : conn) (id : json)
  (s : server) (k : key) :
  py_hash topic = Ok k -> lookup k (topics s) = None ->
  exec (withdraw_producer topic c) (exec (register_producer topic c id) s)
  = mk_server (topics s)
      (kkw s ++ [(c, Text ("New topic registered: " ++ py_str k));
                 (c, Text ("Topic " ++ py_str k ++ " has been withdrawn."))]).
Proof.
  intros Hh Hl.
  unfold exec at 2. rewrite (register_producer_run _ _ _ _ _ Hh), Hl.
  unfold exec. rewrite (withdraw_producer_run _ _ _ _ Hh). simpl.
  rewrite lookup_app, Hl. simpl. rewrite key_eqb_refl. simpl.
  rewrite Nat.eqb_refl. rewrite (delitem_fresh _ _ _ Hl).
  rewrite <- app_assoc. reflexivity.
Qed.

(** ** Fan-out *)

Lemma filter_eqb_NoDup (c : conn) (l : list conn) :
  NoDup l ->
  filter (fun sub => Nat.eqb sub c) l = if mem c l then [c] else [].
Proof.
  induction 1 as [ | x l Hx Hnd IH].
  - reflexivity.
  - cbn [filter]. unfold mem. cbn [existsb]. fold (mem c l).
    rewrite (Nat.eqb_sym x c). destruct (Nat.eqb c x) eqn:E; cbn [orb].
    + apply Nat.eqb_eq in E. subst x. rewrite IH.
      apply mem_false in Hx. rewrite Hx. reflexivity.
    + exact IH.
Qed.

(** X8: in a state the server can reach, a publish by the topic's producer
    queues exactly one copy of the message for each subscriber of the topic
    and nothing for any other socket, its own producer included unless it
    subscribed. *)
Theorem each_subscriber_gets_one_copy (d : dict) (c : conn) (s : server)
  (k : key) (i : info) :
  reachable s ->
  dict_get "type" d = JStr "message" ->
  py_hash (dict_get "topic" d) = Ok k ->
  lookup k (topics s) = Some i -> producer i = c ->
  exists msgs,
    process_message (JObj d) c s
    = (Ok tt, mk_server (topics s) (kkw s ++ msgs))
    /\ forall c',
        addressed_to c' msgs
        = if mem c' (subscribers i)
          then [(c', fanout (dict_get "topic" d) (dict_get "payload" d))]
          else [].
Proof.
  intros Hreach Hty Hh Hl Hp.
  pose proof (reachable_Inv s Hreach) as [_ Hn].
  pose proof (subscribers_nodup_lookup _ _ _ Hn Hl) as Hnd.
  rewrite process_message_route, (route_message d Hty). unfold perform.
  rewrite (publish_run _ _ _ _ _ Hh), Hl.
  apply Nat.eqb_eq in Hp. rewrite Hp. eexists. split; [reflexivity | ].
  intros c'. unfold addressed_to. rewrite filter_map_swap.
  rewrite (filter_ext _ (fun sub => Nat.eqb sub c'))
    by (intros sub; reflexivity).
  rewrite (filter_eqb_NoDup c' _ Hnd).
  destruct (mem c' (subscribers i)); reflexivity.
Qed.

(** ** Disconnections *)

Lemma remove_first_absent (c : conn) (l : list conn) :
  mem c l = false -> remove_first c l = l.
Proof.
  induction l as [ | x l IH]; simpl.
  - reflexivity.
  - destruct (Nat.eqb c x); simpl; [discriminate | ].
    intros H. rewrite (IH H). reflexivity.
Qed.

Lemma without_subscriber_alt (c : conn) (e : key * info) :
  without_subscriber c e
  = (fst e,
     set_subscribers (snd e) (remove_first c (subscribers (snd e)))).
Proof.
  unfold without_subscriber.
  destruct (mem c (subscribers (snd e))) eqn:E; [reflexivity | ].
  rewrite (remove_first_absent _ _ E), set_subscribers_same. reflexivity.
Qed.

(** X9: in a state the server can reach, the disconnection of a socket
    that produces no topic and subscribes to none changes nothing. *)
Theorem disconnection_of_a_stranger (c : conn) (s : server) :
  reachable s -> uninvolved c s -> handle_disconnection c s = s.
Proof.
  intros Hreach Hun. pose proof (reachable_Inv s Hreach) as [Hu _].
  pose proof (handle_disconnection_topics c s Hu) as Ht.
  pose proof (handle_disconnection_kkw c s) as Hk.
  rewrite forallb_filter_id in Ht.
  - rewrite (map_ext_in _ (fun e => e)), map_id in Ht.
    + destruct (handle_disconnection c s) as [t q]. destruct s as [t0 q0].
      simpl in *. congruence.
    + intros [k i] Hin. destruct (Hun k i Hin) as [_ Hnot].
      unfold without_subscriber. simpl.
      apply mem_false in Hnot. rewrite Hnot. reflexivity.
  - apply forallb_forall. intros [k i] Hin.
    destruct (Hun k i Hin) as [Hp _]. unfold produced_by. simpl.
    apply negb_true_iff. apply Nat.eqb_neq. exact Hp.
Qed.

Lemma remove_first_comm (c1 c2 : conn) (l : list conn) :
  remove_first c1 (remove_first c2 l) = remove_first c2 (remove_first c1 l).
Proof.
  destruct (Nat.eq_dec c1 c2) as [-> | Hne]; [reflexivity | ].
  induction l as [ | x l IH]; simpl.
  - reflexivity.
  - destruct (Nat.eqb c2 x) eqn:E2, (Nat.eqb c1 x) eqn:E1; simpl;
      rewrite ?E1, ?E2; try reflexivity.
    + apply Nat.eqb_eq in E1, E2. congruence.
    + rewrite IH. reflexivity.
Qed.

Lemma without_subscriber_comm (c1 c2 : conn) (e : key * info) :
  without_subscriber c1 (without_subscriber c2 e)
  = without_subscriber c2 (without_subscriber c1 e).
Proof.
  rewrite !without_subscriber_alt. simpl.
  unfold set_subscribers. simpl. rewrite remove_first_comm. reflexivity.
Qed.

Lemma produced_by_other_without (c1 c2 : conn) (e : key * info) :
  produced_by c1 (without_subscriber c2 e) = produced_by c1 e.
Proof.
  unfold produced_by, without_subscriber. simpl.
  destruct (mem c2 (subscribers (snd e))); reflexivity.
Qed.

Lemma two_disconnections (c1 c2 : conn) (s : server) :
  Inv s ->
  topics (handle_disconnection c1 (handle_disconnection c2 s))
  = map (fun e => without_subscriber c1 (without_subscriber c2 e))
      (filter (fun e => negb (produced_by c2 e) && negb (produced_by c1 e))
         (topics s)).
Proof.
  intros HI. pose proof (Inv_handle_disconnection c2 s HI) as [Hu2 _].
  destruct HI as [Hu _].
  rewrite (handle_disconnection_topics c1 _ Hu2).
  rewrite (handle_disconnection_topics c2 s Hu).
  rewrite filter_map_swap, map_map, filter_filter. f_equal.
  apply filter_ext. intros e. rewrite produced_by_other_without. reflexivity.
Qed.

(** X10: in a state the server can reach, two disconnections can be
    handled in either order: the resulting state is the same. *)
Theorem disconnections_commute (c1 c2 : conn) (s : server) :
  reachable s ->
  handle_disconnection c1 (handle_disconnection c2 s)
  = handle_disconnection c2 (handle_disconnection c1 s).
Proof.
  intros Hreach. pose proof (reachable_Inv s Hreach) as HI.
  assert (Ht : topics (handle_disconnection c1 (handle_disconnection c2 s))
               = topics (handle_disconnection c2 (handle_disconnection c1 s))).
  { rewrite !two_disconnections by exact HI.
    rewrite (map_ext _ _ (without_subscriber_comm c1 c2)). f_equal.
    apply filter_ext. intros e. apply andb_comm. }
  assert (Hk : kkw (handle_disconnection c1 (handle_disconnection c2 s))
               = kkw (handle_disconnection c2 (handle_disconnection c1 s))).
  { rewrite !handle_disconnection_kkw. reflexivity. }
  destruct (handle_disconnection c1 (handle_disconnection c2 s)).
  destruct (handle_disconnection c2 (handle_disconnection c1 s)).
  simpl in *. congruence.
Qed.

(** ** No traffic for a socket that is gone *)









(** ** The consumers of the inbound queue *)

Lemma raises_run (data : json) (c : conn) (s : server) :
  raises data -> exists e, process_message data c s = (Raise e, s).
Proof.
  intros [Hnd | [d [a [e [-> [Hr [Ha Hh]]]]]]].
  - exists AttributeError. apply process_message_not_dict. exact Hnd.
  - exists e. apply (process_message_unhashable d c s a e Hr Ha Hh).
Qed.

Lemma monitor_topics_app (iso : string -> bool) (q1 q2 : inbound)
  (s s1 : server) :
  monitor_topics iso q1 s = (Ok tt, [], s1) ->
  monitor_topics iso (q1 ++ q2) s = monitor_topics iso q2 s1.
Proof.
  revert s. induction q1 as [ | [c data] q1 IH]; intros s; simpl.
  - intros H. inversion H. reflexivity.
  - destruct (validate_kom iso data) as [[ | ] | e]; try apply IH.
    destruct (process_message data c s) as [[u | e] s']; [apply IH | ].
    discriminate.
Qed.

(** X12: when [monitor_topics] has worked through the head of the queue
    and meets a validated message on which [process_message] raises, the
    thread ends there: the state is the one reached after the head, and the
    messages behind stay in the queue, unprocessed by it. *)
Theorem monitor_stops_at_an_exception (iso : string -> bool)
  (q1 q2 : inbound) (c : conn) (data : json) (s s1 : server) :
  monitor_topics iso q1 s = (Ok tt, [], s1) ->
  validate_kom iso data = Ok true ->
  raises data ->
  monitor_topics iso (q1 ++ (c, data) :: q2) s = (Raise TypeError, q2, s1).
Proof.
  intros Hq1 Hv Hr. rewrite (monitor_topics_app iso q1 _ s s1 Hq1).
  simpl. rewrite Hv.
  destruct (raises_run data c s1 Hr) as [e He]. rewrite He.
  assert (e = TypeError) as ->; [ | reflexivity].
  destruct Hr as [Hnd | [d [a [e' [-> [Hr [Ha Hh]]]]]]].
  - rewrite validate_kom_not_dict in Hv by exact Hnd. discriminate.
  - rewrite (process_message_unhashable d c s1 a e' Hr Ha Hh) in He.
    inversion He. subst. apply (py_hash_raises _ _ Hh).
Qed.


(** ** One client's thread *)

Lemma handle_client_chunks (c : conn) (turns : list received) (kko : inbound)
  (s : server) :
  forallb is_chunk turns = true ->
  handle_client c turns kko s = (kko ++ chunks_of c turns, s, false).
Proof.
  revert kko. induction turns as [ | r turns IH]; intros kko; simpl.
  - rewrite app_nil_r. reflexivity.
  - destruct r; simpl; try discriminate.
    intros H. rewrite (IH _ H), <- app_assoc. reflexivity.
Qed.


(** X15: a producer registration that is still waiting in the inbound
    queue when its sender's session ends is processed afterwards all the
    same; if the name is free the topic is created then, with the closed
    socket as its producer. *)
Theorem registration_outlives_its_session (c : conn) (d : dict) (k : key)
  (s : server) :
  reachable s ->
  route d = Some RegisterProducer ->
  py_hash (dict_get "topic" d) = Ok k ->
  lookup k (topics s) = None ->
  handle_client c [Chunk (JObj d); PeerClosed] [] s
  = ([(c, JObj d)], handle_disconnection c s, true)
  /\ exists s2,
      process_received_messages [(c, JObj d)] (handle_disconnection c s)
      = (Ok tt, [], s2)
      /\ lookup k (topics s2) = Some (mk_info c (dict_get "id" d) []).
Proof.
  intros Hreach Hr Hh Hl. split; [reflexivity | ].
  pose proof (reachable_Inv s Hreach) as [Hu _].
  assert (Hl1 : lookup k (topics (handle_disconnection c s)) = None).
  { apply handle_disconnection_absent; assumption. }
  cbn [process_received_messages].
  rewrite process_message_route, Hr. unfold perform.
  rewrite (register_producer_run _ _ _ _ _ Hh), Hl1.
  eexists. split; [reflexivity | ]. simpl.
  rewrite lookup_app, Hl1. simpl. rewrite key_eqb_refl. reflexivity.
Qed.

(** ** The client's requests, as the server takes them *)



(** ** What the listener shows *)

Lemma listen_fanout (topic payload : json) :
  ClientAPI.listen_for_messages
    (JObj [("topic", topic); ("payload", payload)])
  = Ok (if truthy topic && truthy payload && negb (eq_str topic "logs")
        then ClientAPI.MessageReceived topic payload
        else ClientAPI.NothingShown).
Proof.
  unfold ClientAPI.listen_for_messages.
  change (dict_get "topic" [("topic", topic); ("payload", payload)])
    with topic.
  change (dict_get "payload" [("topic", topic); ("payload", payload)])
    with payload.
  destruct (truthy topic && truthy payload && negb (eq_str topic "logs"));
    reflexivity.
Qed.

(** X17: every message a publish by the topic's producer queues is, once
    decoded by the subscriber's listener, shown as a received message
    exactly when the topic and the payload are both true values for Python
    and the topic is not ["logs"]; otherwise the listener shows nothing: a
    payload such as the empty object, zero or the empty string is dropped
    without a trace, and so is everything published on a topic named
    [logs]. *)
Theorem fanout_is_shown_unless_falsy_or_logs (d : dict) (c : conn)
  (s : server) (k : key) (i : info) :
  dict_get "type" d = JStr "message" ->
  py_hash (dict_get "topic" d) = Ok k ->
  lookup k (topics s) = Some i -> producer i = c ->
  exists j,
    kkw (exec (process_message (JObj d) c) s)
    = kkw s ++ map (fun sub => (sub, Dumps j)) (subscribers i)
    /\ ClientAPI.listen_for_messages j
       = Ok (if truthy (dict_get "topic" d) && truthy (dict_get "payload" d)
                && negb (eq_str (dict_get "topic" d) "logs")
             then ClientAPI.MessageReceived (dict_get "topic" d)
                    (dict_get "payload" d)
             else ClientAPI.NothingShown).
Proof.
  intros Hty Hh Hl Hp.
  rewrite process_message_route, (route_message d Hty). unfold perform, exec.
  rewrite (publish_run _ _ _ _ _ Hh), Hl.
  apply Nat.eqb_eq in Hp. rewrite Hp.
  eexists. split; [reflexivity | apply listen_fanout].
Qed.




(** ** Configuration *)

Lemma get_default_absent (key : string) (default : json) (d : dict) :
  dict_mem key d = false -> Config.get_default key default d = default.
Proof.
  unfold Config.get_default. induction d as [ | [k v] d IH]; simpl.
  - reflexivity.
  - destruct (String.eqb key k); [discriminate | exact IH].
Qed.

(** X20: a configuration file that is missing, one that is not JSON, and
    one that holds an object without the four keys the server reads (the
    empty object, or an object with other keys only) all give the same
    settings: address 127.0.0.1, port 1234, timeout 3, id default_server. *)
Theorem load_config_defaults (d : dict) :
  dict_mem "ListenAddresses" d = false -> dict_mem "ListenPort" d = false ->
  dict_mem "TimeOut" d = false -> dict_mem "ServerID" d = false ->
  Config.load_config (Config.Parsed (JObj d))
  = Config.Settings Config.server_defaults
  /\ Config.load_config Config.Missing = Config.Settings Config.server_defaults
  /\ Config.load_config Config.NotJson = Config.Settings Config.server_defaults.
Proof.
  intros Ha Hp Ht Hi. split; [ | split; reflexivity].
  unfold Config.load_config.
  rewrite !get_default_absent by assumption. reflexivity.
Qed.



(** The bytes E6 97 A5 are one character, the first of the string. *)
Example first_item_of_a_wide_character :
  Config.first_item
    (JStr (String (ascii_of_nat 230) (String (ascii_of_nat 151)
             (String (ascii_of_nat 165) "abc"))))
  = Config.Settings
      (JStr (String (ascii_of_nat 230) (String (ascii_of_nat 151)
               (String (ascii_of_nat 165) EmptyString)))).
Proof. reflexivity. Qed.


(** ** The dispatcher *)

Section DispatcherFacts.

Variable dumps : json -> string.
Variable send_ok : nat -> conn -> message -> bool.
Variable peername : nat -> conn -> option string.
Variable now : nat -> string.
Variable append_ok : nat -> bool.

Let dispatch := handle_outgoing_messages dumps send_ok peername now append_ok.

Lemma dispatch_app (cb : bool) (n : nat) (q1 q2 : list (conn * message))
  (o : outbox) :
  dispatch cb n (q1 ++ q2) o
  = dispatch cb (n + List.length q1) q2 (dispatch cb n q1 o).
Proof.
  revert n o. induction q1 as [ | [c m] q1 IH]; intros n o.
  - simpl. rewrite Nat.add_0_r. reflexivity.
  - unfold dispatch in *. cbn [handle_outgoing_messages app List.length].
    rewrite IH. rewrite <- Nat.add_succ_comm. reflexivity.
Qed.

Lemma callback_step (cb : bool) (n : nat) (c : conn) (m : message)
  (o : outbox) :
  exists l1,
    List.length l1 <= 1 /\ (cb = false -> l1 = [])
    /\ (if cb
        then match on_message_sent dumps peername now append_ok
                     n c m (log_txt o) with
             | Some lines => mk_outbox (sent o ++ [(c, m)]) lines
             | None => mk_outbox (sent o ++ [(c, m)]) (log_txt o)
             end
        else mk_outbox (sent o ++ [(c, m)]) (log_txt o))
       = mk_outbox (sent o ++ [(c, m)]) (log_txt o ++ l1).
Proof.
  destruct cb.
  - unfold on_message_sent. destruct (peername n c) as [peer | ].
    + destruct (append_ok n).
      * eexists [_]. simpl. repeat split; auto. discriminate.
      * exists []. rewrite app_nil_r. simpl. repeat split; auto.
    + exists []. rewrite app_nil_r. simpl. repeat split; auto.
  - exists []. rewrite app_nil_r. simpl. repeat split; auto.
Qed.

Lemma dispatch_grows (cb : bool) (n : nat) (queue : list (conn * message))
  (o : outbox) :
  exists new_sent new_lines,
    sent (dispatch cb n queue o) = sent o ++ new_sent
    /\ log_txt (dispatch cb n queue o) = log_txt o ++ new_lines
    /\ incl new_sent queue
    /\ List.length new_lines <= List.length new_sent
    /\ List.length new_sent <= List.length queue
    /\ (cb = false -> new_lines = []).
Proof.
  revert n o. induction queue as [ | [c m] queue IH]; intros n o.
  - exists [], []. simpl. rewrite !app_nil_r.
    repeat split; auto. intros x Hx. exact Hx.
  - unfold dispatch in *. cbn [handle_outgoing_messages].
    destruct (send_ok n c m).
    + destruct (callback_step cb n c m o) as [l1 [Hl1 [Hcb1 Heq]]].
      rewrite Heq.
      destruct (IH (S n) (mk_outbox (sent o ++ [(c, m)]) (log_txt o ++ l1)))
        as [ns [nl [Hs [Hl [Hin [Hle [Hlen Hcb]]]]]]].
      simpl in Hs, Hl.
      exists ((c, m) :: ns), (l1 ++ nl).
      rewrite Hs, Hl, <- !app_assoc. simpl.
      split; [reflexivity | ]. split; [reflexivity | ]. split.
      * intros x [<- | Hx]; [left; reflexivity | right; apply Hin; exact Hx].
      * rewrite length_app. split; [lia | ]. split; [lia | ].
        intros Hf. rewrite (Hcb1 Hf), (Hcb Hf). reflexivity.
    + destruct (IH (S n) o) as [ns [nl [Hs [Hl [Hin [Hle [Hlen Hcb]]]]]]].
      exists ns, nl. split; [exact Hs | ]. split; [exact Hl | ]. split.
      * intros x Hx. right. apply Hin. exact Hx.
      * simpl. split; [lia | ]. split; [lia | exact Hcb].
Qed.

(** X23: run on any content of the outbound queue, the dispatcher only
    adds to what has been sent and to the log; every message it sends was
    on the queue; it writes at most one log line per message sent, so
    nothing is logged that was not sent; and without a registered callback
    it logs nothing. *)
Theorem dispatcher_sends_only_what_was_queued (cb : bool) (n : nat)
  (queue : list (conn * message)) (o : outbox) :
  exists new_sent new_lines,
    sent (handle_outgoing_messages dumps send_ok peername now append_ok
            cb n queue o)
    = sent o ++ new_sent
    /\ log_txt (handle_outgoing_messages dumps send_ok peername now append_ok
                  cb n queue o)
       = log_txt o ++ new_lines
    /\ incl new_sent queue
    /\ List.length new_lines <= List.length new_sent
    /\ List.length new_sent <= List.length queue
    /\ (cb = false -> new_lines = []).
Proof. apply dispatch_grows. Qed.

(** X24: a send that fails loses that one message and nothing else: the
    messages queued before it and after it are handled as if it had never
    been queued, apart from the turn it took. *)
Theorem failed_send_loses_one_message (cb : bool) (n : nat)
  (before after : list (conn * message)) (c : conn) (m : message)
  (o : outbox) :
  send_ok (n + List.length before) c m = false ->
  handle_outgoing_messages dumps send_ok peername now append_ok cb n
    (before ++ (c, m) :: after) o
  = handle_outgoing_messages dumps send_ok peername now append_ok cb
      (S (n + List.length before)) after
      (handle_outgoing_messages dumps send_ok peername now append_ok cb n
         before o).
Proof.
  intros Hfail. fold dispatch. rewrite dispatch_app.
  unfold dispatch. cbn [handle_outgoing_messages]. rewrite Hfail.
  reflexivity.
Qed.

Lemma dispatch_all_sent (cb : bool) (n : nat) (queue : list (conn * message))
  (o : outbox) :
  (forall i c m, send_ok i c m = true) ->
  sent (dispatch cb n queue o) = sent o ++ queue.
Proof.
  intros Hok. revert n o. induction queue as [ | [c m] queue IH]; intros n o.
  - simpl. rewrite app_nil_r. reflexivity.
  - unfold dispatch in *. cbn [handle_outgoing_messages]. rewrite Hok.
    rewrite IH.
    destruct cb; [destruct (on_message_sent _ _ _ _ _ _ _ _) | ];
      simpl; rewrite <- app_assoc; reflexivity.
Qed.

Lemma dispatch_all_logged (n : nat) (queue : list (conn * message))
  (o : outbox) :
  (forall i c m, send_ok i c m = true) ->
  (forall i c, peername i c <> None) ->
  (forall i, append_ok i = true) ->
  exists lines,
    log_txt (dispatch true n queue o) = log_txt o ++ lines
    /\ Forall2 (log_line_of dumps) queue lines.
Proof.
  intros Hok Hpeer Happ. revert n o.
  induction queue as [ | [c m] queue IH]; intros n o.
  - exists []. simpl. rewrite app_nil_r. split; [reflexivity | constructor].
  - unfold dispatch in *. cbn [handle_outgoing_messages]. rewrite Hok.
    unfold on_message_sent. destruct (peername n c) as [peer | ] eqn:Hp;
      [ | exfalso; apply (Hpeer n c Hp)].
    rewrite Happ.
    match goal with
    | |- context [handle_outgoing_messages _ _ _ _ _ _ (S n) queue ?o1] =>
        destruct (IH (S n) o1) as [lines [Hl Hall]]
    end.
    eexists (_ :: lines). rewrite Hl. simpl. rewrite <- app_assoc.
    split; [reflexivity | ]. constructor; [ | exact Hall].
    exists (now n), peer. reflexivity.
Qed.

(** X25: when every send goes through, the dispatcher sends the whole
    queue in queue order; when moreover the callback is registered and the
    peer name and the log file are available, the log gains one line per
    message, in the same order, each made of a time stamp, the peer and the
    text sent, ended by a line feed. *)
Theorem dispatcher_delivers_in_order (cb : bool) (n : nat)
  (queue : list (conn * message)) (o : outbox) :
  (forall i c m, send_ok i c m = true) ->
  sent (handle_outgoing_messages dumps send_ok peername now append_ok
          cb n queue o)
  = sent o ++ queue
  /\ ((forall i c, peername i c <> None) ->
      (forall i, append_ok i = true) ->
      exists lines,
        log_txt (handle_outgoing_messages dumps send_ok peername now
                   append_ok true n queue o)
        = log_txt o ++ lines
        /\ Forall2 (log_line_of dumps) queue lines).
Proof.
  intros Hok. split.
  - apply dispatch_all_sent. exact Hok.
  - intros Hpeer Happ. apply dispatch_all_logged; assumption.
Qed.

(** X26: from the publish to the wire: when the topic's producer
    publishes while the outbound queue is empty and every send goes
    through, the dispatcher sends the message once to each subscriber, in
    the order of subscription, and to nobody else. *)
Theorem published_message_reaches_every_subscriber (cb : bool) (n : nat)
  (d : dict) (c : conn) (s : server) (k : key) (i : info) (o : outbox) :
  (forall t c' m, send_ok t c' m = true) ->
  kkw s = [] ->
  dict_get "type" d = JStr "message" ->
  py_hash (dict_get "topic" d) = Ok k ->
  lookup k (topics s) = Some i -> producer i = c ->
  sent (handle_outgoing_messages dumps send_ok peername now append_ok cb n
          (kkw (exec (process_message (JObj d) c) s)) o)
  = sent o
    ++ map (fun sub =>
              (sub, fanout (dict_get "topic" d) (dict_get "payload" d)))
         (subscribers i).
Proof.
  intros Hok Hempty Hty Hh Hl Hp.
  fold dispatch. rewrite (dispatch_all_sent cb n _ o Hok). f_equal.
  rewrite process_message_route, (route_message d Hty). unfold perform, exec.
  rewrite (publish_run _ _ _ _ _ Hh), Hl.
  apply Nat.eqb_eq in Hp. rewrite Hp. simpl. rewrite Hempty. reflexivity.
Qed.

End DispatcherFacts.

(** ** The further statements at concrete inputs *)

Lemma one_reply_to_the_sender_witness :
  exists m,
    kkw (exec (process_message
                 (envelope "message" (JStr "C") (JStr "temp") "producer"
                    (JStr "hello")) 3) sample_state)
    = kkw sample_state ++ [(3, m)].
Proof.
  refine (one_reply_to_the_sender
            (fields "message" (JStr "C") (JStr "temp") "producer"
               (JStr "hello")) 3 sample_state _ _).
  - reflexivity.
  - intros k i _ Hh Hl. inversion Hh. subst k.
    vm_compute in Hl. inversion Hl. simpl. lia.
Defined.

Lemma other_topics_untouched_witness :
  lookup (KStr "other")
    (topics (exec (process_message
                     (envelope "withdraw" (JStr "P") (JStr "temp") "producer"
                        (JObj [])) 1) sample_state))
  = lookup (KStr "other") (topics sample_state).
Proof.
  refine (other_topics_untouched
            (fields "withdraw" (JStr "P") (JStr "temp") "producer" (JObj []))
            1 sample_state (KStr "temp") (KStr "other") _ _).
  - reflexivity.
  - reflexivity.
Defined.

Lemma only_the_producer_removes_a_topic_witness :
  exists i',
    lookup (KStr "temp")
      (topics (step (Message
                       (envelope "withdraw" (JStr "S") (JStr "temp")
                          "producer" (JObj [])) 2) sample_state))
    = Some i'
    /\ producer i' = 1 /\ producer_id i' = JStr "P".
Proof.
  refine (only_the_producer_removes_a_topic
            (Message (envelope "withdraw" (JStr "S") (JStr "temp") "producer"
                        (JObj [])) 2)
            sample_state (KStr "temp") (mk_info 1 (JStr "P") [2]) _ _ _).
  - exact sample_state_reachable.
  - reflexivity.
  - simpl. lia.
Defined.

Lemma subscribe_then_withdraw_restores_witness :
  topics (exec (withdraw_subscriber (JStr "temp") 3)
            (exec (register_subscriber (JStr "temp") 3) sample_state))
  = topics sample_state.
Proof.
  rewrite (subscribe_then_withdraw_restores (JStr "temp") 3 sample_state
             (KStr "temp") (mk_info 1 (JStr "P") [2])).
  - reflexivity.
  - reflexivity.
  - reflexivity.
  - simpl. lia.
Defined.

Lemma register_then_withdraw_restores_witness :
  topics (exec (withdraw_producer (JStr "other") 3)
            (exec (register_producer (JStr "other") 3 (JStr "X"))
               sample_state))
  = topics sample_state.
Proof.
  rewrite (register_then_withdraw_restores (JStr "other") 3 (JStr "X")
             sample_state (KStr "other")).
  - reflexivity.
  - reflexivity.
  - reflexivity.
Defined.

Lemma each_subscriber_gets_one_copy_witness :
  exists msgs,
    process_message
      (envelope "message" (JStr "P") (JStr "temp") "producer" (JStr "hello"))
      1 sample_state
    = (Ok tt, mk_server (topics sample_state) (kkw sample_state ++ msgs))
    /\ forall c',
        addressed_to c' msgs
        = if mem c' [2]
          then [(c', fanout (JStr "temp") (JStr "hello"))]
          else [].
Proof.
  refine (each_subscriber_gets_one_copy
            (fields "message" (JStr "P") (JStr "temp") "producer"
               (JStr "hello"))
            1 sample_state (KStr "temp") (mk_info 1 (JStr "P") [2])
            _ _ _ _ _).
  - exact sample_state_reachable.
  - reflexivity.
  - reflexivity.
  - reflexivity.
  - reflexivity.
Defined.

Lemma disconnection_of_a_stranger_witness :
  handle_disconnection 7 sample_state = sample_state.
Proof.
  refine (disconnection_of_a_stranger 7 sample_state _ _).
  - exact sample_state_reachable.
  - intros k i Hin. simpl in Hin. destruct Hin as [Hin | []].
    inversion Hin. simpl. lia.
Defined.

Lemma disconnections_commute_witness :
  handle_disconnection 1 (handle_disconnection 2 sample_state)
  = handle_disconnection 2 (handle_disconnection 1 sample_state).
Proof.
  exact (disconnections_commute 1 2 sample_state sample_state_reachable).
Defined.


Lemma monitor_stops_at_an_exception_witness :
  monitor_topics iso_sample
    ([] ++ (1, envelope "register" (JStr "P") (JArr []) "producer" (JObj []))
        :: [(2, envelope "register" (JStr "Q") (JStr "temp") "producer"
                  (JObj []))])
    init
  = (Raise TypeError,
     [(2, envelope "register" (JStr "Q") (JStr "temp") "producer" (JObj []))],
     init).
Proof.
  refine (monitor_stops_at_an_exception iso_sample [] _ 1 _ init init _ _ _).
  - reflexivity.
  - reflexivity.
  - right. exists (fields "register" (JStr "P") (JArr []) "producer" (JObj [])),
      RegisterProducer, TypeError.
    repeat split; try reflexivity. discriminate.
Defined.


Lemma registration_outlives_its_session_witness :
  exists s2,
    process_received_messages
      [(3, envelope "register" (JStr "X") (JStr "late") "producer" (JObj []))]
      (handle_disconnection 3 sample_state)
    = (Ok tt, [], s2)
    /\ lookup (KStr "late") (topics s2) = Some (mk_info 3 (JStr "X") []).
Proof.
  refine (proj2
    (registration_outlives_its_session 3
       (fields "register" (JStr "X") (JStr "late") "producer" (JObj []))
       (KStr "late") sample_state _ _ _ _)).
  - exact sample_state_reachable.
  - reflexivity.
  - reflexivity.
  - reflexivity.
Defined.

Lemma fanout_is_shown_unless_falsy_or_logs_witness :
  exists j,
    kkw (exec (process_message
                 (envelope "message" (JStr "P") (JStr "temp") "producer"
                    (JObj [])) 1) sample_state)
    = kkw sample_state ++ map (fun sub => (sub, Dumps j)) [2]
    /\ ClientAPI.listen_for_messages j = Ok ClientAPI.NothingShown.
Proof.
  refine (fanout_is_shown_unless_falsy_or_logs
            (fields "message" (JStr "P") (JStr "temp") "producer" (JObj []))
            1 sample_state (KStr "temp") (mk_info 1 (JStr "P") [2])
            _ _ _ _).
  - reflexivity.
  - reflexivity.
  - reflexivity.
  - reflexivity.
Defined.


Lemma load_config_defaults_witness :
  Config.load_config (Config.Parsed (JObj [("Verbose", JBool true)]))
  = Config.Settings Config.server_defaults.
Proof.
  refine (proj1 (load_config_defaults [("Verbose", JBool true)] _ _ _ _));
    reflexivity.
Defined.

Lemma failed_send_loses_one_message_witness :
  handle_outgoing_messages (fun _ => "{}")
    (fun n _ _ => negb (Nat.eqb n 1)) (fun _ _ => Some "peer")
    (fun _ => "now") (fun _ => true) true 0
    ([(1, Text "a")] ++ (2, Text "b") :: [(3, Text "c")]) (mk_outbox [] [])
  = handle_outgoing_messages (fun _ => "{}")
      (fun n _ _ => negb (Nat.eqb n 1)) (fun _ _ => Some "peer")
      (fun _ => "now") (fun _ => true) true
      (S (0 + List.length [(1, Text "a")])) [(3, Text "c")]
      (handle_outgoing_messages (fun _ => "{}")
         (fun n _ _ => negb (Nat.eqb n 1)) (fun _ _ => Some "peer")
         (fun _ => "now") (fun _ => true) true 0 [(1, Text "a")]
         (mk_outbox [] [])).
Proof.
  refine (failed_send_loses_one_message (fun _ => "{}")
            (fun n _ _ => negb (Nat.eqb n 1)) (fun _ _ => Some "peer")
            (fun _ => "now") (fun _ => true) true 0
            [(1, Text "a")] [(3, Text "c")] 2 (Text "b") (mk_outbox [] []) _).
  reflexivity.
Defined.

Lemma dispatcher_delivers_in_order_witness :
  sent (handle_outgoing_messages (fun _ => "{}") (fun _ _ _ => true)
          (fun _ _ => Some "peer") (fun _ => "now") (fun _ => true) true 0
          (kkw sample_state) (mk_outbox [] []))
  = [] ++ kkw sample_state.
Proof.
  refine (proj1
    (dispatcher_delivers_in_order (fun _ => "{}") (fun _ _ _ => true)
       (fun _ _ => Some "peer") (fun _ => "now") (fun _ => true) true 0
       (kkw sample_state) (mk_outbox [] []) _)).
  reflexivity.
Defined.

Lemma published_message_reaches_every_subscriber_witness :
  sent (handle_outgoing_messages (fun _ => "{}") (fun _ _ _ => true)
          (fun _ _ => Some "peer") (fun _ => "now") (fun _ => true) true 0
          (kkw (exec (process_message
                        (envelope "message" (JStr "P") (JStr "temp")
                           "producer" (JStr "hello")) 1)
                  (mk_server (topics sample_state) [])))
          (mk_outbox [] []))
  = [] ++ map (fun sub => (sub, fanout (JStr "temp") (JStr "hello"))) [2].
Proof.
  refine (published_message_reaches_every_subscriber (fun _ => "{}")
            (fun _ _ _ => true) (fun _ _ => Some "peer") (fun _ => "now")
            (fun _ => true) true 0
            (fields "message" (JStr "P") (JStr "temp") "producer"
               (JStr "hello"))
            1 (mk_server (topics sample_state) []) (KStr "temp")
            (mk_info 1 (JStr "P") [2]) (mk_outbox [] []) _ _ _ _ _ _);
    reflexivity.
Defined.
